(** * geogram-esp32: the pre-build hook [scripts/pre_build.py]

    A shallow embedding of [pre_build_action] and of the Python library
    calls it makes, followed by the properties of the hook.

    - Python [str] is [string], read as the bytes the operating system is
      given; a list of flags is [list string].
    - The hook's effects are threaded through a state-and-exception monad
      [M]: an exception leaves the state as it was when it was raised.
    - The world the hook acts on holds the SCons construction environment
      ([BUILD_FLAGS], when set a list of strings, and the string that
      [$PROJECT_DIR] expands to), the lines printed so far and a POSIX
      filesystem.
    - The filesystem is a finite map from resolved locations (lists of
      names below the root) to nodes, with a current directory.  It has
      directories (with a write permission) and regular files.  A path with
      an embedded NUL is refused with [ValueError], a name over [NAME_MAX]
      with the [OSError] of ENAMETOOLONG, and a call of [os.makedirs] nested
      deeper than the interpreter's recursion limit allows with
      [RecursionError]: the room the interpreter has left for such calls is
      part of what the process sees, next to the tree and the current
      directory.  Symbolic links and the limit [PATH_MAX] on the length of
      a whole path are outside the model (a statement that needs the limit
      carries it as a hypothesis); every directory may be searched, a new
      directory is writable (the umask leaves the owner's bits), and the
      console is taken to encode every line that is printed.
    - [os.path.join], [os.path.split], [os.path.exists], [os.path.isdir]
      and [os.makedirs] follow CPython's [posixpath] and [os] modules;
      [os_mkdir] and [os_stat] follow mkdir(2) and stat(2). *)

From stdpp Require Import gmap strings list.
From Stdlib Require Import String Ascii.

Open Scope string_scope.
Open Scope list_scope.

(** ** Python strings *)

Module Str.

(** [s.split(sep)] for a one-character separator. *)
Fixpoint split (sep : ascii) (s : string) : list string :=
  match s with
  | EmptyString => [EmptyString]
  | String c s' =>
      if Ascii.eqb c sep then EmptyString :: split sep s'
      else match split sep s' with
           | [] => [String c EmptyString]
           | x :: xs => String c x :: xs
           end
  end.

(** [needle in hay]. *)
Fixpoint contains (needle hay : string) : bool :=
  String.prefix needle hay ||
  match hay with
  | EmptyString => false
  | String _ hay' => contains needle hay'
  end.

(** [c in s] for a character. *)
Fixpoint has_char (c : ascii) (s : string) : bool :=
  match s with
  | EmptyString => false
  | String d s' => Ascii.eqb d c || has_char c s'
  end.

(** [s.count(c)] for a character. *)
Fixpoint count (c : ascii) (s : string) : nat :=
  match s with
  | EmptyString => 0
  | String d s' => (if Ascii.eqb d c then 1 else 0) + count c s'
  end.

Definition startswith (c : ascii) (s : string) : bool :=
  match s with
  | String d _ => Ascii.eqb d c
  | EmptyString => false
  end.

Fixpoint endswith (c : ascii) (s : string) : bool :=
  match s with
  | EmptyString => false
  | String d EmptyString => Ascii.eqb d c
  | String _ s' => endswith c s'
  end.

(** [c * n]. *)
Fixpoint repeat (c : ascii) (n : nat) : string :=
  match n with
  | O => EmptyString
  | S n' => String c (repeat c n')
  end.

(** [s.rstrip(c)]. *)
Fixpoint rstrip (c : ascii) (s : string) : string :=
  match s with
  | EmptyString => EmptyString
  | String d s' =>
      match rstrip c s' with
      | EmptyString => if Ascii.eqb d c then EmptyString else String d EmptyString
      | r => String d r
      end
  end.

(** [(s[:i], s[i:])] for [i = s.rfind(c) + 1]. *)
Fixpoint rcut (c : ascii) (s : string) : string * string :=
  match s with
  | EmptyString => (EmptyString, EmptyString)
  | String d s' =>
      let '(h, t) := rcut c s' in
      if Ascii.eqb d c then (String d h, t)
      else match h with
           | EmptyString => (EmptyString, String d t)
           | _ => (String d h, t)
           end
  end.

(** The text of [s] up to its first [c], and what follows that [c]. *)
Fixpoint before (c : ascii) (s : string) : string :=
  match s with
  | EmptyString => EmptyString
  | String d s' => if Ascii.eqb d c then EmptyString else String d (before c s')
  end.

Fixpoint after (c : ascii) (s : string) : string :=
  match s with
  | EmptyString => EmptyString
  | String d s' => if Ascii.eqb d c then s' else after c s'
  end.

End Str.

(** ** Exceptions and the monad of the hook *)

Inductive exn : Type :=
  | FileExistsError
  | FileNotFoundError
  | NotADirectoryError
  | PermissionError
  | OSError_ENAMETOOLONG
  | ValueError
  | IndexError
  | RecursionError.

(** [except OSError]: the first four are subclasses of [OSError], and
    [OSError_ENAMETOOLONG] is the [OSError] with [errno] 36 that a file name
    over [NAME_MAX] gets. *)
Definition is_OSError (e : exn) : bool :=
  match e with
  | FileExistsError | FileNotFoundError | NotADirectoryError | PermissionError
  | OSError_ENAMETOOLONG => true
  | ValueError | IndexError | RecursionError => false
  end.

Definition is_FileExistsError (e : exn) : bool :=
  match e with
  | FileExistsError => true
  | _ => false
  end.

Definition M (St A : Type) : Type := St -> (exn + A) * St.

Definition ret {St A : Type} (a : A) : M St A := fun s => (inr a, s).

Definition raise {St A : Type} (e : exn) : M St A := fun s => (inl e, s).

Definition bind {St A B : Type} (m : M St A) (k : A -> M St B) : M St B :=
  fun s =>
    match m s with
    | (inr a, s') => k a s'
    | (inl e, s') => (inl e, s')
    end.

(** [try: m  except <catches> as e: h e]. *)
Definition try_except {St A : Type} (m : M St A) (catches : exn -> bool)
    (h : exn -> M St A) : M St A :=
  fun s =>
    match m s with
    | (inl e, s') => if catches e then h e s' else (inl e, s')
    | r => r
    end.

Notation "x <- m ;; k" := (bind m (fun x => k))
  (at level 100, m at next level, right associativity).
Notation "m ;;; k" := (bind m (fun _ => k))
  (at level 100, right associativity).

(** ** The filesystem *)

(** A directory, which the process may or may not write to, or a regular
    file. *)
Inductive node : Type :=
  | Dir (writable : bool)
  | File.

(** What the process that runs the hook sees of its surroundings: the
    directory tree, its current directory, and [room], the number of calls of
    [os.makedirs] that the interpreter's recursion limit still lets the
    hook's own call of [os.makedirs] nest inside itself. *)
Record filesystem : Type := mkFs {
  nodes : gmap (list string) node;
  cwd : list string;
  room : nat
}.

Definition sep : ascii := "/"%char.

(** The character a path must not hold. *)
Definition NUL : ascii := Ascii.zero.

Definition has_nul (p : string) : bool := Str.has_char NUL p.

(** The longest file name, in bytes, and the names over it. *)
Definition NAME_MAX : nat := 255.

Definition too_long (c : string) : bool := Nat.ltb NAME_MAX (String.length c).

Arguments too_long : simpl never.

(** One step of path resolution from the directory at [cur]. *)
Definition step (cur : list string) (c : string) : list string :=
  if String.eqb c "" then cur
  else if String.eqb c "." then cur
  else if String.eqb c ".." then removelast cur
  else cur ++ [c].

(** Resolution of the components [cs] from [cur]: every component is looked
    up in a directory that has to exist, and a name over [NAME_MAX] cannot be
    looked up. *)
Fixpoint walk (m : gmap (list string) node) (cur : list string) (cs : list string)
    : exn + list string :=
  match cs with
  | [] => inr cur
  | c :: cs' =>
      match m !! cur with
      | None => inl FileNotFoundError
      | Some File => inl NotADirectoryError
      | Some (Dir _) =>
          if too_long c then inl OSError_ENAMETOOLONG
          else walk m (step cur c) cs'
      end
  end.

Definition start (fs : filesystem) (p : string) : list string :=
  if Str.startswith sep p then [] else cwd fs.

(** [os.stat(p)]: the node a path names, by stat(2); a path with an
    embedded NUL is refused with [ValueError] before the system is asked. *)
Definition os_stat (fs : filesystem) (p : string) : exn + node :=
  if has_nul p then inl ValueError
  else if String.eqb p "" then inl FileNotFoundError
  else match walk (nodes fs) (start fs p) (Str.split sep p) with
       | inl e => inl e
       | inr loc =>
           match nodes fs !! loc with
           | None => inl FileNotFoundError
           | Some n => inr n
           end
       end.

(** [os.path.exists(p)] and [os.path.isdir(p)]: a failing [os.stat], with
    an [OSError] or with [ValueError], is [False]. *)
Definition path_exists (p : string) : M filesystem bool :=
  fun fs => (inr (match os_stat fs p with inr _ => true | inl _ => false end), fs).

Definition path_isdir (p : string) : M filesystem bool :=
  fun fs => (inr (match os_stat fs p with inr (Dir _) => true | _ => false end), fs).

(** A name other than the empty one, [.] and [..]. *)
Definition plain (c : string) : bool :=
  negb (String.eqb c "" || String.eqb c "." || String.eqb c "..").

(** [os.mkdir(p)], by mkdir(2): a path with an embedded NUL is refused with
    [ValueError]; trailing slashes are ignored, the parent has to be a
    directory, the last name has to be a free one of at most [NAME_MAX] bytes
    (EEXIST, also for [.], [..] and the root, and ENAMETOOLONG are reported
    before EACCES), and the parent has to be writable.  The new directory is
    writable. *)
Definition os_mkdir (p : string) : M filesystem unit :=
  fun fs =>
    if has_nul p then (inl ValueError, fs)
    else if String.eqb p "" then (inl FileNotFoundError, fs)
    else
      let cs := Str.split sep (Str.rstrip sep p) in
      match walk (nodes fs) (start fs p) (removelast cs) with
      | inl e => (inl e, fs)
      | inr d =>
          match nodes fs !! d with
          | None => (inl FileNotFoundError, fs)
          | Some File => (inl NotADirectoryError, fs)
          | Some (Dir w) =>
              let c := List.last cs "" in
              if negb (plain c) then (inl FileExistsError, fs)
              else if too_long c then (inl OSError_ENAMETOOLONG, fs)
              else match nodes fs !! (d ++ [c]) with
                   | Some _ => (inl FileExistsError, fs)
                   | None =>
                       if w then (inr tt, mkFs (<[d ++ [c] := Dir true]> (nodes fs))
                                               (cwd fs) (room fs))
                       else (inl PermissionError, fs)
                   end
          end
      end.

(** [os.path.join(a, b)] of [posixpath]. *)
Definition os_path_join (a b : string) : string :=
  if Str.startswith sep b then b
  else if String.eqb a "" || Str.endswith sep a then a +:+ b
  else a +:+ "/" +:+ b.

(** [os.path.split(p)] of [posixpath]:
    [i = p.rfind(sep) + 1; head, tail = p[:i], p[i:]];
    [if head and head != sep*len(head): head = head.rstrip(sep)]. *)
Definition os_path_split (p : string) : string * string :=
  let '(head, tail) := Str.rcut sep p in
  if negb (String.eqb head "") && negb (String.eqb head (Str.repeat sep (String.length head)))
  then (Str.rstrip sep head, tail)
  else (head, tail).

(** [os.makedirs(name, exist_ok=exist_ok)].  [fuel] is the number of calls
    that still fit under the interpreter's recursion limit: a call that does
    not fit raises [RecursionError] before it does anything. *)
Fixpoint makedirs_rec (fuel : nat) (name : string) (exist_ok : bool)
    : M filesystem unit :=
  match fuel with
  | O => raise RecursionError
  | S fuel' =>
      let '(head, tail) := os_path_split name in
      let '(head, tail) :=
        if String.eqb tail "" then os_path_split head else (head, tail) in
      returned <-
        (if negb (String.eqb head "") && negb (String.eqb tail "") then
           ex <- path_exists head ;;
           if negb ex then
             try_except (makedirs_rec fuel' head exist_ok)
               is_FileExistsError (fun _ => ret tt) ;;;
             ret (String.eqb tail ".")
           else ret false
         else ret false) ;;
      if returned then ret tt
      else
        try_except (os_mkdir name) is_OSError (fun e =>
          d <- path_isdir name ;;
          if negb exist_ok || negb d then raise e else ret tt)
  end.

(** The hook's own call of [os.makedirs] fits, and [room] calls fit inside
    it. *)
Definition makedirs (name : string) (exist_ok : bool) : M filesystem unit :=
  fun fs => makedirs_rec (S (room fs)) name exist_ok fs.

(** ** The hook *)

(** The construction environment [env], as far as the hook reads it. *)
Record environment : Type := mkEnv {
  BUILD_FLAGS : option (list string);
  PROJECT_DIR : string
}.

Record world : Type := mkWorld {
  env : environment;
  stdout : list string;
  fs : filesystem
}.

(** [env.get("BUILD_FLAGS", default)]. *)
Definition env_get_BUILD_FLAGS (dflt : list string) : M world (list string) :=
  fun w => (inr (default dflt (BUILD_FLAGS (env w))), w).

(** [env.subst("$PROJECT_DIR")]. *)
Definition env_subst_PROJECT_DIR : M world string :=
  fun w => (inr (PROJECT_DIR (env w)), w).

Definition print (line : string) : M world unit :=
  fun w => (inr tt, mkWorld (env w) (stdout w ++ [line]) (fs w)).

(** A filesystem call made by the hook. *)
Definition on_fs {A : Type} (m : M filesystem A) : M world A :=
  fun w => let '(r, fs') := m (fs w) in (r, mkWorld (env w) (stdout w) fs').

Definition marker : string := "BOARD_MODEL=".

(** [flag.split("=")[1]]. *)
Definition split_index_1 (flag : string) : exn + string :=
  match Str.split "="%char flag with
  | _ :: v :: _ => inr v
  | _ => inl IndexError
  end.

(** The [for] loop: [board_model] is [None] unless a flag holds the marker. *)
Fixpoint scan_flags (flags : list string) : exn + option string :=
  match flags with
  | [] => inr None
  | flag :: rest =>
      if Str.contains marker flag then
        match split_index_1 flag with
        | inr v => inr (Some v)
        | inl e => inl e
        end
      else scan_flags rest
  end.

Definition lift {St A : Type} (r : exn + A) : M St A := fun s => (r, s).

(** [if board_model:] -- [None] and the empty string are false. *)
Definition truthy (board_model : option string) : bool :=
  match board_model with
  | None => false
  | Some v => negb (String.eqb v "")
  end.

Definition log_line (v : string) : string :=
  "[Geogram] Building for board model: " +:+ v.

(** [pre_build_action(source, target, env)], statement by statement; the
    hook does not use [source] and [target], and returns [None]. *)
Definition pre_build_action : M world unit :=
  flags <- env_get_BUILD_FLAGS [] ;;
  board_model <- lift (scan_flags flags) ;;
  (if truthy board_model
   then print (log_line (default "" board_model))
   else ret tt) ;;;
  project_dir <- env_subst_PROJECT_DIR ;;
  let firmware_dir := os_path_join project_dir "firmware" in
  on_fs (makedirs firmware_dir true).

(** ** Vocabulary of the statements *)

Definition eq_char : ascii := "="%char.

(** The text of a flag between its first [=] and its next one. *)
Definition field_1 (flag : string) : string :=
  Str.before eq_char (Str.after eq_char flag).

Definition no_marker (flag : string) : Prop := Str.contains marker flag = false.

Definition flags_of (w : world) : list string := default [] (BUILD_FLAGS (env w)).

Definition firmware_dir_of (w : world) : string :=
  os_path_join (PROJECT_DIR (env w)) "firmware".

(** The lines the hook prints for a value of [board_model]. *)
Definition printed (board_model : option string) : list string :=
  if truthy board_model then [log_line (default "" board_model)] else [].

(** The world when [os.makedirs] is called. *)
Definition logged (w : world) (board_model : option string) : world :=
  mkWorld (env w) (stdout w ++ printed board_model) (fs w).

(** The three shapes of a path that [os.path.split] cuts into [(head, tail)]. *)
Inductive split_shape (p head tail : string) : Prop :=
  | shape_bare : head = "" -> p = tail -> split_shape p head tail
  | shape_under (k : nat) :
      head <> "" -> Str.endswith sep head = false ->
      p = head +:+ Str.repeat sep (S k) +:+ tail -> split_shape p head tail
  | shape_root (k : nat) :
      head = Str.repeat sep (S k) -> p = head +:+ tail -> split_shape p head tail.

(** The components that lead to the directory a path's last name is in. *)
Definition parent_comps (p : string) : list string :=
  removelast (Str.split sep p).

Definition parent_loc (fs : filesystem) (p : string) : exn + list string :=
  walk (nodes fs) (start fs p) (parent_comps p).

(** [fs'] is [fs] with some new writable directories. *)
Definition extends (fs fs' : filesystem) : Prop :=
  (cwd fs' = cwd fs /\ room fs' = room fs) /\
  forall k, nodes fs' !! k = nodes fs !! k \/
            (nodes fs !! k = None /\ nodes fs' !! k = Some (Dir true)).

(** The two cuts at the top of [makedirs]. *)
Definition split2 (name : string) : string * string :=
  let '(head, tail) := os_path_split name in
  if String.eqb tail "" then os_path_split head else (head, tail).

(** The first [if] of [makedirs]; the result says whether it returned. *)
Definition ensure_head (fuel' : nat) (head tail : string) (exist_ok : bool)
    : M filesystem bool :=
  if negb (String.eqb head "") && negb (String.eqb tail "") then
    ex <- path_exists head ;;
    if negb ex then
      try_except (makedirs_rec fuel' head exist_ok)
        is_FileExistsError (fun _ => ret tt) ;;;
      ret (String.eqb tail ".")
    else ret false
  else ret false.

(** The closing [try: mkdir(name) except OSError: ...] of [makedirs]. *)
Definition mkdir_or_exists (name : string) (exist_ok : bool) : M filesystem unit :=
  try_except (os_mkdir name) is_OSError (fun e =>
    d <- path_isdir name ;;
    if negb exist_ok || negb d then raise e else ret tt).

(** A name that [os.path.join], [os.mkdir] and path resolution take as it
    is: not empty, not [.] or [..], without [/] and NUL, and of at most
    [NAME_MAX] bytes. *)
Definition clean (c : string) : bool :=
  plain c && negb (Str.has_char sep c) && negb (has_nul c) && negb (too_long c).

(** The longest path, in bytes with its closing NUL, that a system call
    takes. *)
Definition PATH_MAX : nat := 4096.

Fixpoint slashed (cs : list string) : string :=
  match cs with
  | [] => ""
  | c :: cs' => "/" +:+ c +:+ slashed cs'
  end.

(** The absolute path of the location [cs]. *)
Definition path_of (cs : list string) : string :=
  match cs with
  | [] => "/"
  | _ => slashed cs
  end.

(** [m] with the directories [base/ms1], [base/ms1/ms2], ... added. *)
Fixpoint add_dirs (base ms : list string) (m : gmap (list string) node)
    : gmap (list string) node :=
  match ms with
  | [] => m
  | c :: ms' => add_dirs (base ++ [c]) ms' (<[base ++ [c] := Dir true]> m)
  end.

(** [cs] and all the locations above it are directories. *)
Definition all_dirs (m : gmap (list string) node) (cs : list string) : Prop :=
  forall i, i <= List.length cs -> exists w, m !! take i cs = Some (Dir w).

(** A filesystem as the kernel keeps it: the root and the current directory
    are directories, and whatever exists is in a directory. *)
Definition wf (fs : filesystem) : Prop :=
  (exists w, nodes fs !! [] = Some (Dir w)) /\
  (exists w, nodes fs !! cwd fs = Some (Dir w)) /\
  (forall k n, nodes fs !! k = Some n ->
               exists w, nodes fs !! removelast k = Some (Dir w)).

(** [os.stat(p)] does not report a missing file or directory. *)
Definition found (fs : filesystem) (p : string) : Prop :=
  os_stat fs p <> inl FileNotFoundError.

(** What [makedirs] guarantees on a well-formed filesystem: the filesystem
    stays well-formed, the exception is never [FileNotFoundError], and after
    a normal return or a [FileExistsError] the name resolves. *)
Definition safe (name : string) (fs : filesystem) (r : exn + unit)
    (fs' : filesystem) : Prop :=
  wf fs' /\ r <> inl FileNotFoundError /\
  ((r = inr tt \/ r = inl FileExistsError) -> found fs' name).


(** [/], [/tmp] and [/tmp/proj] are writable directories, [/ro] is a
    read-only one, and [/etc/passwd] is a file; the interpreter has room for
    900 nested calls. *)
Definition sample_fs : filesystem :=
  mkFs (<[ ["etc"; "passwd"] := File ]>
        (<[ ["etc"] := Dir true ]>
        (<[ ["ro"] := Dir false ]>
        (<[ ["tmp"; "proj"] := Dir true ]>
        (<[ ["tmp"] := Dir true ]>
        (<[ [] := Dir true ]> ∅))))))
       [] 900.

(** [sample_fs] seen from an interpreter with room for one nested call. *)
Definition sample_fs_shallow : filesystem :=
  mkFs (nodes sample_fs) [] 1.

(** [/tmp/pr?j], where [?] is the character NUL. *)
Definition path_with_nul : string := "/tmp/pr" +:+ String NUL "j".

Definition sample_world (flags : list string) (project_dir : string) : world :=
  mkWorld (mkEnv (Some flags) project_dir) [] sample_fs.


(** * Properties *)

(** ** Strings *)

Section StrFacts.

Variable c : ascii.

Lemma split_nonempty (s : string) : Str.split c s <> [].
Proof.
  destruct s as [|d s]; simpl; [discriminate|].
  destruct (Ascii.eqb d c); [discriminate|].
  destruct (Str.split c s); discriminate.
Qed.

Lemma split_cons_other (d : ascii) (s : string) :
  Ascii.eqb d c = false ->
  exists x xs, Str.split c s = x :: xs /\ Str.split c (String d s) = String d x :: xs.
Proof.
  intros Hd. simpl. rewrite Hd.
  destruct (Str.split c s) as [|x xs] eqn:E.
  - exfalso. eapply split_nonempty; eauto.
  - eauto.
Qed.

Lemma split_app (a b : string) :
  Str.split c (a +:+ String c b) = Str.split c a ++ Str.split c b.
Proof.
  induction a as [|d a IH]; simpl.
  - rewrite Ascii.eqb_refl. reflexivity.
  - destruct (Ascii.eqb d c); [rewrite IH; reflexivity|].
    rewrite IH. destruct (Str.split c a) as [|x xs] eqn:E.
    + exfalso. eapply split_nonempty; eauto.
    + reflexivity.
Qed.

Lemma split_no_char (s : string) :
  Str.has_char c s = false -> Str.split c s = [s].
Proof.
  induction s as [|d s IH]; simpl; [reflexivity|].
  intros H. apply orb_false_iff in H as [Hd Hs].
  rewrite Hd, (IH Hs). reflexivity.
Qed.

Lemma split_repeat (k : nat) :
  Str.split c (Str.repeat c k) = replicate (S k) "".
Proof.
  induction k as [|k IH]; simpl; [reflexivity|].
  rewrite Ascii.eqb_refl, IH. reflexivity.
Qed.

(** [s.split(c)] begins with the text before the first [c] and goes on
    with the split of what follows it. *)
Lemma split_before_after (s : string) :
  Str.split c s =
  Str.before c s :: (if Str.has_char c s then Str.split c (Str.after c s) else []).
Proof.
  induction s as [|d s IH]; simpl; [reflexivity|].
  destruct (Ascii.eqb d c); simpl; [reflexivity|].
  rewrite IH. reflexivity.
Qed.

Lemma before_no_char (s : string) : Str.has_char c (Str.before c s) = false.
Proof.
  induction s as [|d s IH]; simpl; [reflexivity|].
  destruct (Ascii.eqb d c) eqn:E; simpl; [reflexivity|].
  rewrite E, IH. reflexivity.
Qed.

Lemma before_after (s : string) :
  Str.has_char c s = true -> s = Str.before c s +:+ String c (Str.after c s).
Proof.
  induction s as [|d s IH]; simpl; [discriminate|].
  destruct (Ascii.eqb_spec d c) as [->|Hne]; simpl; [reflexivity|].
  intros H. rewrite (IH H) at 1. reflexivity.
Qed.

Lemma before_id (s : string) : Str.has_char c s = false -> Str.before c s = s.
Proof.
  induction s as [|d s IH]; simpl; [reflexivity|].
  intros H. apply orb_false_iff in H as [Hd Hs].
  rewrite Hd, (IH Hs). reflexivity.
Qed.

Lemma has_char_app (a b : string) :
  Str.has_char c (a +:+ b) = Str.has_char c a || Str.has_char c b.
Proof.
  induction a as [|d a IH]; simpl; [reflexivity|].
  rewrite IH, orb_assoc. reflexivity.
Qed.

End StrFacts.

Lemma prefix_app (n h : string) :
  String.prefix n h = true -> exists r, h = n +:+ r.
Proof.
  revert h. induction n as [|a n IH]; intros h H.
  - exists h. reflexivity.
  - destruct h as [|b h]; simpl in H; [discriminate|].
    destruct (ascii_dec a b) as [->|]; [|discriminate].
    destruct (IH _ H) as [r ->]. exists r. reflexivity.
Qed.

Lemma app_prefix (n r : string) : String.prefix n (n +:+ r) = true.
Proof.
  induction n as [|a n IH]; simpl.
  - destruct r; reflexivity.
  - destruct (ascii_dec a a); [assumption|congruence].
Qed.

(** [Str.contains] is the substring test. *)
Lemma contains_spec (n h : string) :
  Str.contains n h = true <-> exists a b, h = a +:+ n +:+ b.
Proof.
  split.
  - induction h as [|d h IH]; intros H.
    + unfold Str.contains in H. rewrite orb_false_r in H.
      destruct (prefix_app _ _ H) as [r Hr].
      exists "", r. exact Hr.
    + change (String.prefix n (String d h) || Str.contains n h = true) in H.
      apply orb_true_iff in H as [H|H].
      * destruct (prefix_app _ _ H) as [r ->]. exists "", r. reflexivity.
      * destruct (IH H) as (a & b & ->). exists (String d a), b. reflexivity.
  - intros (a & b & ->). induction a as [|d a IH].
    + change ("" +:+ n +:+ b) with (n +:+ b).
      destruct (n +:+ b) eqn:E; unfold Str.contains; fold Str.contains;
        rewrite <- E, app_prefix; reflexivity.
    + change (String.prefix n (String d a +:+ n +:+ b)
              || Str.contains n (a +:+ n +:+ b) = true).
      rewrite IH. apply orb_true_r.
Qed.

Lemma contains_has_char (c : ascii) (n h : string) :
  Str.contains n h = true -> Str.has_char c n = true -> Str.has_char c h = true.
Proof.
  intros H Hc. apply contains_spec in H as (a & b & ->).
  rewrite !has_char_app, Hc, orb_true_r. reflexivity.
Qed.

(** ** The scanner *)

Lemma split_index_1_spec (flag : string) :
  split_index_1 flag =
  if Str.has_char eq_char flag then inr (field_1 flag) else inl IndexError.
Proof.
  unfold split_index_1, field_1. fold eq_char.
  rewrite (split_before_after eq_char flag).
  destruct (Str.has_char eq_char flag); [|reflexivity].
  rewrite (split_before_after eq_char (Str.after eq_char flag)). reflexivity.
Qed.

Lemma marker_has_eq (flag : string) :
  Str.contains marker flag = true -> Str.has_char eq_char flag = true.
Proof. intros H. eapply contains_has_char; eauto. Qed.

(** A flag that holds the marker has a second field: no [IndexError]. *)
Lemma split_index_1_marker (flag : string) :
  Str.contains marker flag = true -> split_index_1 flag = inr (field_1 flag).
Proof.
  intros H. rewrite split_index_1_spec, (marker_has_eq _ H). reflexivity.
Qed.

Lemma scan_flags_skip (pre rest : list string) :
  Forall no_marker pre -> scan_flags (pre ++ rest) = scan_flags rest.
Proof.
  induction 1 as [|f pre Hf _ IH]; simpl; [reflexivity|].
  rewrite Hf. exact IH.
Qed.

Lemma scan_flags_first (pre rest : list string) (flag : string) :
  Forall no_marker pre -> Str.contains marker flag = true ->
  scan_flags (pre ++ flag :: rest) = inr (Some (field_1 flag)).
Proof.
  intros Hpre Hflag. rewrite scan_flags_skip by assumption. simpl.
  rewrite Hflag, split_index_1_marker by assumption. reflexivity.
Qed.

Lemma scan_flags_none (flags : list string) :
  Forall no_marker flags -> scan_flags flags = inr None.
Proof.
  intros H. rewrite <- (app_nil_r flags). rewrite scan_flags_skip by assumption.
  reflexivity.
Qed.

(** The loop never raises. *)
Lemma scan_flags_total (flags : list string) :
  exists bm, scan_flags flags = inr bm.
Proof.
  induction flags as [|f flags IH]; simpl; [eauto|].
  destruct (Str.contains marker f) eqn:E; [|exact IH].
  rewrite split_index_1_marker by assumption. eauto.
Qed.

(** ** The hook, step by step *)

Lemma pre_build_action_eq (w : world) (board_model : option string) :
  scan_flags (flags_of w) = inr board_model ->
  pre_build_action w =
  on_fs (makedirs (firmware_dir_of w) true) (logged w board_model).
Proof.
  intros Hscan. unfold pre_build_action, bind, env_get_BUILD_FLAGS, lift.
  fold (flags_of w). rewrite Hscan.
  unfold logged, printed, firmware_dir_of, env_subst_PROJECT_DIR.
  destruct (truthy board_model); simpl.
  - reflexivity.
  - rewrite app_nil_r. destruct w; reflexivity.
Qed.

Lemma on_fs_eq {A : Type} (m : M filesystem A) (w : world) :
  on_fs m w = (fst (m (fs w)), mkWorld (env w) (stdout w) (snd (m (fs w)))).
Proof. unfold on_fs. destruct (m (fs w)); reflexivity. Qed.

Lemma pre_build_action_stdout (w : world) (board_model : option string) :
  scan_flags (flags_of w) = inr board_model ->
  stdout (snd (pre_build_action w)) = stdout w ++ printed board_model.
Proof.
  intros H. rewrite (pre_build_action_eq _ _ H), on_fs_eq. reflexivity.
Qed.

Lemma pre_build_action_result (w : world) :
  fst (pre_build_action w) = fst (makedirs (firmware_dir_of w) true (fs w)) /\
  fs (snd (pre_build_action w)) = snd (makedirs (firmware_dir_of w) true (fs w)) /\
  env (snd (pre_build_action w)) = env w.
Proof.
  destruct (scan_flags_total (flags_of w)) as [bm H].
  rewrite (pre_build_action_eq _ _ H), on_fs_eq. auto.
Qed.

(** ** Path strings *)

Lemma str_app_cons (x : ascii) (a b : string) : String x a +:+ b = String x (a +:+ b).
Proof. reflexivity. Qed.

Lemma str_app_nil_l (b : string) : "" +:+ b = b.
Proof. reflexivity. Qed.

Ltac str_simpl := rewrite ?str_app_cons, ?str_app_nil_l.

Lemma str_app_assoc (a b d : string) : (a +:+ b) +:+ d = a +:+ (b +:+ d).
Proof. induction a as [|x a IH]; str_simpl; congruence. Qed.

Lemma str_app_nil_r (a : string) : a +:+ "" = a.
Proof. induction a as [|x a IH]; str_simpl; congruence. Qed.

Lemma str_length_app (a b : string) :
  String.length (a +:+ b) = String.length a + String.length b.
Proof. induction a as [|x a IH]; str_simpl; simpl; congruence. Qed.

Lemma str_length_repeat (c : ascii) (k : nat) : String.length (Str.repeat c k) = k.
Proof. induction k as [|k IH]; simpl; congruence. Qed.

Lemma str_app_empty (a b : string) : a +:+ b = "" -> a = "" /\ b = "".
Proof. destruct a; str_simpl; [auto|discriminate]. Qed.

Section PathStrings.

Variable c : ascii.

Lemma endswith_cons (d : ascii) (s : string) :
  s <> "" -> Str.endswith c (String d s) = Str.endswith c s.
Proof. destruct s; [congruence|reflexivity]. Qed.

Lemma endswith_has_char (s : string) :
  Str.endswith c s = true -> Str.has_char c s = true.
Proof.
  induction s as [|d s IH]; [discriminate|].
  destruct s as [|e s].
  - simpl. intros ->. reflexivity.
  - rewrite endswith_cons by discriminate. intros H.
    change (Ascii.eqb d c || Str.has_char c (String e s) = true).
    rewrite (IH H). apply orb_true_r.
Qed.

Lemma endswith_app (a b : string) :
  b <> "" -> Str.endswith c (a +:+ b) = Str.endswith c b.
Proof.
  intros Hb. induction a as [|d a IH]; [reflexivity|].
  change (String d a +:+ b) with (String d (a +:+ b)).
  rewrite endswith_cons; [exact IH|].
  intros H. apply str_app_empty in H as [_ H]. contradiction.
Qed.

Lemma rstrip_cons (d : ascii) (s : string) :
  Str.rstrip c s <> "" -> Str.rstrip c (String d s) = String d (Str.rstrip c s).
Proof. simpl. destruct (Str.rstrip c s); [congruence|reflexivity]. Qed.

Lemma rstrip_id (s : string) : Str.endswith c s = false -> Str.rstrip c s = s.
Proof.
  induction s as [|d s IH]; [reflexivity|].
  destruct s as [|e s].
  - simpl. intros ->. reflexivity.
  - rewrite endswith_cons by discriminate. intros H.
    rewrite rstrip_cons; rewrite (IH H); [reflexivity|discriminate].
Qed.

Lemma rstrip_endswith (s : string) : Str.endswith c (Str.rstrip c s) = false.
Proof.
  induction s as [|d s IH]; [reflexivity|]. simpl.
  destruct (Str.rstrip c s) as [|e r] eqn:E.
  - destruct (Ascii.eqb d c) eqn:Ed; [reflexivity|]. simpl. exact Ed.
  - rewrite endswith_cons by discriminate. exact IH.
Qed.

(** [s] is its [rstrip] followed by a run of [c]. *)
Lemma rstrip_spec (s : string) :
  exists k, s = Str.rstrip c s +:+ Str.repeat c k.
Proof.
  induction s as [|d s (k & IH)]; [exists 0; reflexivity|]. simpl.
  destruct (Str.rstrip c s) as [|e r] eqn:E.
  - destruct (Ascii.eqb_spec d c) as [->|Hne].
    + exists (S k). simpl. rewrite IH at 1. reflexivity.
    + exists k. simpl. rewrite IH at 1. reflexivity.
  - exists k. rewrite IH at 1. reflexivity.
Qed.

Lemma rstrip_repeat (k : nat) : Str.rstrip c (Str.repeat c k) = "".
Proof.
  induction k as [|k IH]; [reflexivity|]. simpl. rewrite IH, Ascii.eqb_refl.
  reflexivity.
Qed.

(** [Str.rcut] cuts after the last [c]. *)
Lemma rcut_spec (s h t : string) :
  Str.rcut c s = (h, t) ->
  s = h +:+ t /\ Str.has_char c t = false /\ (h = "" \/ Str.endswith c h = true).
Proof.
  revert h t. induction s as [|d s IH]; intros h t H; simpl in H.
  - inversion H; subst. auto.
  - destruct (Str.rcut c s) as [h0 t0].
    destruct (IH _ _ eq_refl) as (-> & Ht & Hh).
    destruct (Ascii.eqb d c) eqn:Ed.
    + inversion H; subst. repeat split; [assumption|]. right.
      destruct Hh as [->|Hh]; [simpl; exact Ed|].
      rewrite endswith_cons; [assumption|]. intros ->. discriminate.
    + destruct h0 as [|e h0].
      * inversion H; subst. simpl. rewrite Ed. auto.
      * inversion H; subst. repeat split; [assumption|]. right.
        destruct Hh as [Hh|Hh]; [discriminate|].
        rewrite endswith_cons by discriminate. assumption.
Qed.

Lemma split_run (k : nat) (t : string) :
  Str.has_char c t = false ->
  Str.split c (Str.repeat c k +:+ t) = replicate k "" ++ [t].
Proof.
  intros Ht. induction k as [|k IH]; simpl.
  - apply split_no_char. assumption.
  - rewrite Ascii.eqb_refl, IH. reflexivity.
Qed.

Lemma split_head_run (h t : string) (k : nat) :
  Str.has_char c t = false ->
  Str.split c (h +:+ Str.repeat c (S k) +:+ t) =
  Str.split c h ++ replicate k "" ++ [t].
Proof.
  intros Ht.
  change (Str.repeat c (S k) +:+ t) with (String c (Str.repeat c k +:+ t)).
  rewrite split_app, split_run by assumption. reflexivity.
Qed.

End PathStrings.

Lemma os_path_split_shape (p head tail : string) :
  os_path_split p = (head, tail) ->
  Str.has_char sep tail = false /\ split_shape p head tail.
Proof.
  unfold os_path_split. destruct (Str.rcut sep p) as [h0 t] eqn:E.
  destruct (rcut_spec _ _ _ _ E) as (Hp & Ht & Hh).
  destruct (String.eqb_spec h0 "") as [->|Hne]; simpl.
  - intros H. inversion H; subst. split; [assumption|]. apply shape_bare; reflexivity.
  - destruct Hh as [Hh|Hh]; [contradiction|].
    destruct (String.eqb_spec h0 (Str.repeat sep (String.length h0))) as [Hrep|Hrep]; simpl.
    + intros H. inversion H; subst. split; [assumption|].
      destruct (String.length head) as [|k] eqn:El.
      * simpl in Hrep. contradiction.
      * eapply shape_root; eauto.
    + intros H. inversion H; subst. split; [assumption|].
      destruct (rstrip_spec sep h0) as [k Hk].
      destruct k as [|k].
      * simpl in Hk. rewrite str_app_nil_r in Hk.
        pose proof (rstrip_endswith sep h0) as Hr. rewrite <- Hk in Hr. congruence.
      * apply (shape_under _ _ _ k).
        -- intros Hr. rewrite Hr in Hk. simpl in Hk. apply Hrep.
           rewrite Hk at 2. simpl. rewrite str_length_repeat. exact Hk.
        -- apply rstrip_endswith.
        -- rewrite <- str_app_assoc. rewrite <- Hk. reflexivity.
Qed.

(** ** Path resolution *)

Lemma too_long_empty : too_long "" = false.
Proof. reflexivity. Qed.

Lemma has_nul_app (a b : string) : has_nul (a +:+ b) = has_nul a || has_nul b.
Proof. apply has_char_app. Qed.

Section Walk.

Variable m : gmap (list string) node.

Lemma walk_app (cur : list string) (a b : list string) :
  walk m cur (a ++ b) =
  match walk m cur a with
  | inl e => inl e
  | inr d => walk m d b
  end.
Proof.
  revert cur. induction a as [|x a IH]; intros cur; simpl; [reflexivity|].
  destruct (m !! cur) as [[w|]|]; auto.
  destruct (too_long x); auto.
Qed.

Lemma walk_empties_dir (d : list string) (w : bool) (n : nat) :
  m !! d = Some (Dir w) -> walk m d (replicate n "") = inr d.
Proof.
  intros Hd. induction n as [|n IH]; simpl; [reflexivity|].
  rewrite Hd, ?too_long_empty. exact IH.
Qed.

Lemma walk_empties_inv (cur d : list string) (n : nat) :
  walk m cur (replicate n "") = inr d -> cur = d.
Proof.
  induction n as [|n IH]; simpl.
  - congruence.
  - rewrite ?too_long_empty.
    destruct (m !! cur) as [[w|]|]; [exact IH|discriminate|discriminate].
Qed.

Lemma walk_mono (m' : gmap (list string) node) (cur d : list string) (cs : list string) :
  (forall k n, m !! k = Some n -> m' !! k = Some n) ->
  walk m cur cs = inr d -> walk m' cur cs = inr d.
Proof.
  intros Hsub. revert cur. induction cs as [|x cs IH]; intros cur; simpl; [auto|].
  destruct (m !! cur) as [[w|]|] eqn:E; try discriminate.
  rewrite (Hsub _ _ E). destruct (too_long x); [discriminate|]. apply IH.
Qed.

End Walk.

Lemma step_plain (cur : list string) (c : string) :
  plain c = true -> step cur c = cur ++ [c].
Proof.
  unfold plain, step. intros H. apply negb_true_iff in H.
  apply orb_false_iff in H as [H H2]. apply orb_false_iff in H as [H0 H1].
  rewrite H0, H1, H2. reflexivity.
Qed.

Section SplitFacts.

Variables p head tail : string.
Hypothesis Hsplit : os_path_split p = (head, tail).

Lemma split_last : Str.split sep p = parent_comps p ++ [tail].
Proof.
  unfold parent_comps.
  destruct (os_path_split_shape _ _ _ Hsplit) as [Ht [H1 H2|k H1 H2 H3|k H1 H2]].
  - subst. rewrite split_no_char by assumption. reflexivity.
  - rewrite H3, split_head_run by assumption.
    rewrite app_assoc, removelast_last. reflexivity.
  - rewrite H2, H1, split_run by assumption. rewrite removelast_last. reflexivity.
Qed.

Lemma last_tail : List.last (Str.split sep p) "" = tail.
Proof. rewrite split_last. apply last_last. Qed.

Lemma parent_comps_bare : head = "" -> parent_comps p = [] /\ Str.startswith sep p = false.
Proof.
  intros ->. unfold parent_comps.
  destruct (os_path_split_shape _ _ _ Hsplit) as [Ht [H1 H2|k H1 H2 H3|k H1 H2]].
  - subst. rewrite split_no_char by assumption. split; [reflexivity|].
    destruct tail as [|x t]; [reflexivity|]. simpl in *.
    apply orb_false_iff in Ht as [Ht _]. exact Ht.
  - congruence.
  - discriminate.
Qed.

Lemma walk_parent_comps (m : gmap (list string) node) (cur d : list string) (w : bool) :
  head <> "" -> m !! d = Some (Dir w) ->
  walk m cur (Str.split sep head) = inr d <-> walk m cur (parent_comps p) = inr d.
Proof.
  intros Hne Hd. unfold parent_comps.
  destruct (os_path_split_shape _ _ _ Hsplit) as [Ht [H1 H2|k H1 H2 H3|k H1 H2]].
  - congruence.
  - rewrite H3, split_head_run by assumption.
    rewrite app_assoc, removelast_last, walk_app. split.
    + intros ->. eapply walk_empties_dir; eauto.
    + destruct (walk m cur (Str.split sep head)) as [e|d'] eqn:E; [discriminate|].
      intros H. apply walk_empties_inv in H. congruence.
  - rewrite H2, H1, split_run, split_repeat by assumption.
    rewrite removelast_last. split.
    + intros H. pose proof (walk_empties_inv _ _ _ _ H) as ->.
      eapply walk_empties_dir; eauto.
    + intros H. pose proof (walk_empties_inv _ _ _ _ H) as ->.
      eapply walk_empties_dir; eauto.
Qed.

Lemma startswith_head : head <> "" -> Str.startswith sep p = Str.startswith sep head.
Proof.
  intros Hne.
  destruct (os_path_split_shape _ _ _ Hsplit) as [Ht [H1 H2|k H1 H2 H3|k H1 H2]].
  - congruence.
  - rewrite H3. destruct head; [congruence|reflexivity].
  - rewrite H2, H1. reflexivity.
Qed.

Lemma rstrip_tail : tail <> "" -> Str.rstrip sep p = p /\ p <> "".
Proof.
  intros Hne.
  destruct (os_path_split_shape _ _ _ Hsplit) as [Ht Hshape].
  assert (Hend : Str.endswith sep tail = false).
  { destruct (Str.endswith sep tail) eqn:E; [|reflexivity].
    apply endswith_has_char in E. congruence. }
  assert (Hp : exists a, p = a +:+ tail).
  { destruct Hshape as [H1 H2|k H1 H2 H3|k H1 H2].
    - exists "". assumption.
    - exists (head +:+ Str.repeat sep (S k)). rewrite str_app_assoc. assumption.
    - exists head. assumption. }
  destruct Hp as [a ->]. split.
  - apply rstrip_id. rewrite endswith_app; assumption.
  - intros H. apply str_app_empty in H as [_ H]. contradiction.
Qed.

Lemma length_head :
  String.length head <= String.length p /\
  (tail <> "" -> String.length head < String.length p).
Proof.
  destruct (os_path_split_shape _ _ _ Hsplit) as [Ht [H1 H2|k H1 H2 H3|k H1 H2]].
  - subst. simpl. split; [lia|]. destruct tail; [congruence|simpl; lia].
  - rewrite H3, !str_length_app, str_length_repeat. split; lia.
  - rewrite H2, str_length_app. split; [lia|].
    destruct tail; [congruence|simpl; lia].
Qed.

End SplitFacts.

(** ** [os.stat] and [os.mkdir] on a path cut by [os.path.split] *)

Lemma extends_refl (fs : filesystem) : extends fs fs.
Proof. split; auto. Qed.

Lemma extends_trans (a b d : filesystem) : extends a b -> extends b d -> extends a d.
Proof.
  intros [[Hc1 Hr1] H1] [[Hc2 Hr2] H2]. split; [split; congruence|].
  intros k. destruct (H1 k) as [E1|[E1 E1']], (H2 k) as [E2|[E2 E2']].
  - left. congruence.
  - right. split; congruence.
  - right. split; congruence.
  - right. split; congruence.
Qed.

Lemma extends_keeps (fs fs' : filesystem) (k : list string) (n : node) :
  extends fs fs' -> nodes fs !! k = Some n -> nodes fs' !! k = Some n.
Proof. intros [_ H] Hk. destruct (H k) as [E|[E _]]; congruence. Qed.

Lemma walk_error (m : gmap (list string) node) (cur cs : list string) (e : exn) :
  walk m cur cs = inl e -> is_OSError e = true.
Proof.
  revert cur. induction cs as [|x cs IH]; intros cur; simpl; [discriminate|].
  destruct (m !! cur) as [[w|]|]; [destruct (too_long x); [|apply IH]| |];
    intros H; inversion H; reflexivity.
Qed.

(** [os.stat] and [os.mkdir] on a path with a NUL. *)
Lemma os_stat_nul (fs : filesystem) (p : string) :
  has_nul p = true -> os_stat fs p = inl ValueError.
Proof. intros H. unfold os_stat. rewrite H. reflexivity. Qed.

Lemma os_mkdir_nul (fs : filesystem) (p : string) :
  has_nul p = true -> os_mkdir p fs = (inl ValueError, fs).
Proof. intros H. unfold os_mkdir. rewrite H. reflexivity. Qed.

Lemma os_stat_ok_nul (fs : filesystem) (p : string) (n : node) :
  os_stat fs p = inr n -> has_nul p = false.
Proof. unfold os_stat. destruct (has_nul p); [discriminate|reflexivity]. Qed.

Lemma os_mkdir_ok_nul (fs fs' : filesystem) (p : string) :
  os_mkdir p fs = (inr tt, fs') -> has_nul p = false.
Proof. unfold os_mkdir. destruct (has_nul p); [discriminate|reflexivity]. Qed.

(** A failing [os.mkdir] changes nothing; it raises [ValueError] for a path
    with a NUL and an [OSError] for any other. *)
Lemma os_mkdir_error (p : string) (fs fs' : filesystem) (e : exn) :
  os_mkdir p fs = (inl e, fs') ->
  fs' = fs /\
  (has_nul p = true /\ e = ValueError \/ has_nul p = false /\ is_OSError e = true).
Proof.
  unfold os_mkdir. intros H. cbv zeta in H.
  destruct (has_nul p) eqn:En.
  { inversion H; subst. auto. }
  repeat match type of H with
         | match ?x with _ => _ end = _ => destruct x eqn:?
         end; inversion H; subst; (split; [reflexivity|right; split; [reflexivity|]]);
    eauto using walk_error.
Qed.

Lemma os_mkdir_extends (p : string) (fs fs' : filesystem) (r : exn + unit) :
  os_mkdir p fs = (r, fs') -> extends fs fs'.
Proof.
  unfold os_mkdir. intros H. cbv zeta in H.
  repeat match type of H with
         | match ?x with _ => _ end = _ => destruct x eqn:?
         end; inversion H; subst; try apply extends_refl.
  split; [split; reflexivity|]. intros k. simpl.
  match goal with
  | |- context [ <[?i := _]> _ ] => destruct (decide (i = k)) as [<-|Hne]
  end.
  - right. rewrite lookup_insert_eq. auto.
  - left. rewrite lookup_insert_ne by assumption. reflexivity.
Qed.

Section OnSplit.

Variables p head tail : string.
Hypothesis Hsplit : os_path_split p = (head, tail).
Hypothesis Htail : tail <> "".

Lemma os_stat_split (fs : filesystem) :
  os_stat fs p =
  if has_nul p then inl ValueError
  else
  match parent_loc fs p with
  | inl e => inl e
  | inr d =>
      match nodes fs !! d with
      | None => inl FileNotFoundError
      | Some File => inl NotADirectoryError
      | Some (Dir _) =>
          if too_long tail then inl OSError_ENAMETOOLONG
          else
          match nodes fs !! step d tail with
          | None => inl FileNotFoundError
          | Some n => inr n
          end
      end
  end.
Proof.
  destruct (rstrip_tail _ _ _ Hsplit Htail) as [_ Hp].
  unfold os_stat, parent_loc. apply String.eqb_neq in Hp. rewrite Hp.
  destruct (has_nul p); [reflexivity|].
  rewrite (split_last _ _ _ Hsplit) at 1. rewrite walk_app.
  destruct (walk (nodes fs) (start fs p) (parent_comps p)) as [e|d]; [reflexivity|].
  simpl. destruct (nodes fs !! d) as [[w|]|]; try reflexivity.
  destruct (too_long tail); reflexivity.
Qed.

Lemma os_mkdir_split (fs : filesystem) :
  os_mkdir p fs =
  if has_nul p then (inl ValueError, fs)
  else
  match parent_loc fs p with
  | inl e => (inl e, fs)
  | inr d =>
      match nodes fs !! d with
      | None => (inl FileNotFoundError, fs)
      | Some File => (inl NotADirectoryError, fs)
      | Some (Dir w) =>
          if negb (plain tail) then (inl FileExistsError, fs)
          else if too_long tail then (inl OSError_ENAMETOOLONG, fs)
          else match nodes fs !! (d ++ [tail]) with
               | Some _ => (inl FileExistsError, fs)
               | None =>
                   if w then (inr tt, mkFs (<[d ++ [tail] := Dir true]> (nodes fs))
                                           (cwd fs) (room fs))
                   else (inl PermissionError, fs)
               end
      end
  end.
Proof.
  destruct (rstrip_tail _ _ _ Hsplit Htail) as [Hr Hp].
  unfold os_mkdir, parent_loc. apply String.eqb_neq in Hp. rewrite Hp, Hr.
  rewrite (last_tail _ _ _ Hsplit). reflexivity.
Qed.

(** A directory made by [os.mkdir] is there afterwards. *)
Lemma os_mkdir_ok_isdir (fs fs' : filesystem) :
  os_mkdir p fs = (inr tt, fs') -> os_stat fs' p = inr (Dir true).
Proof.
  intros H. pose proof (os_mkdir_extends _ _ _ _ H) as Hext.
  rewrite os_mkdir_split in H. rewrite os_stat_split.
  destruct (has_nul p); [discriminate|].
  unfold parent_loc in *.
  destruct (walk (nodes fs) (start fs p) (parent_comps p)) as [e|d] eqn:Ew;
    [discriminate|].
  destruct (nodes fs !! d) as [[w|]|] eqn:Ed; try discriminate.
  destruct (plain tail) eqn:Ep; simpl in H; [|discriminate].
  destruct (too_long tail) eqn:El; [discriminate|].
  destruct (nodes fs !! (d ++ [tail])) eqn:Et; [discriminate|].
  destruct w; [|discriminate]. inversion H as [Hfs']; clear H.
  assert (Hw : walk (nodes fs') (start fs' p) (parent_comps p) = inr d).
  { unfold start in *. rewrite (proj1 (proj1 Hext)).
    eapply walk_mono; [|exact Ew].
    intros k n Hk. eapply extends_keeps; eauto. }
  rewrite Hfs', Hw, (extends_keeps _ _ _ _ Hext Ed), step_plain by assumption.
  rewrite <- Hfs'. simpl. rewrite lookup_insert_eq. reflexivity.
Qed.

(** [os.mkdir] fails on a path that is there, and changes nothing. *)
Lemma os_mkdir_existing (fs : filesystem) (n : node) :
  os_stat fs p = inr n -> exists e, os_mkdir p fs = (inl e, fs).
Proof.
  rewrite os_stat_split, os_mkdir_split.
  destruct (has_nul p); [discriminate|].
  destruct (parent_loc fs p) as [e|d]; [discriminate|].
  destruct (nodes fs !! d) as [[w|]|]; try discriminate.
  destruct (too_long tail); [discriminate|].
  destruct (plain tail) eqn:Ep; simpl; [|eauto].
  rewrite step_plain by assumption.
  destruct (nodes fs !! (d ++ [tail])); [eauto|discriminate].
Qed.

(** The head of a path without NUL has none. *)
Lemma has_nul_head : has_nul p = false -> has_nul head = false.
Proof.
  intros Hn.
  destruct (os_path_split_shape _ _ _ Hsplit) as [Ht [H1 H2|k H1 H2 H3|k H1 H2]].
  - subst. reflexivity.
  - rewrite H3, has_nul_app in Hn. apply orb_false_iff in Hn as [Hn _]. exact Hn.
  - rewrite H2, has_nul_app in Hn. apply orb_false_iff in Hn as [Hn _]. exact Hn.
Qed.

(** The directory a path is in exists when the path does. *)
Lemma os_stat_head (fs : filesystem) (n : node) :
  head <> "" -> os_stat fs p = inr n -> exists w, os_stat fs head = inr (Dir w).
Proof.
  intros Hne. rewrite os_stat_split. unfold parent_loc.
  destruct (has_nul p) eqn:En; [discriminate|].
  destruct (walk (nodes fs) (start fs p) (parent_comps p)) as [e|d] eqn:Ew;
    [discriminate|].
  destruct (nodes fs !! d) as [[w|]|] eqn:Ed; try discriminate.
  intros _. exists w. unfold os_stat. rewrite (has_nul_head En).
  apply String.eqb_neq in Hne as Hne'. rewrite Hne'.
  apply (walk_parent_comps _ _ _ Hsplit _ _ _ w Hne Ed) in Ew.
  unfold start in *. rewrite <- (startswith_head _ _ _ Hsplit Hne).
  rewrite Ew, Ed. reflexivity.
Qed.

End OnSplit.

(** ** [os.makedirs] *)

Lemma makedirs_rec_S (fuel' : nat) (name : string) (exist_ok : bool) :
  makedirs_rec (S fuel') name exist_ok =
  (returned <- ensure_head fuel' (fst (split2 name)) (snd (split2 name)) exist_ok ;;
   if returned then ret tt else mkdir_or_exists name exist_ok).
Proof.
  unfold split2. simpl. destruct (os_path_split name) as [h t].
  destruct (String.eqb t ""); [destruct (os_path_split h)|]; reflexivity.
Qed.

Lemma split2_tail (name head tail : string) :
  os_path_split name = (head, tail) -> tail <> "" -> split2 name = (head, tail).
Proof.
  intros H Ht. unfold split2. rewrite H.
  apply String.eqb_neq in Ht. rewrite Ht. reflexivity.
Qed.

Lemma split2_length (name head tail : string) :
  split2 name = (head, tail) -> tail <> "" ->
  String.length head < String.length name.
Proof.
  unfold split2. destruct (os_path_split name) as [h t] eqn:E.
  destruct (String.eqb_spec t "") as [->|Hne]; intros H Ht.
  - pose proof (length_head _ _ _ E) as [Hle _].
    pose proof (length_head _ _ _ H) as [_ Hlt]. specialize (Hlt Ht). lia.
  - inversion H; subst. apply (length_head _ _ _ E). assumption.
Qed.

Lemma mkdir_or_exists_cases (name : string) (exist_ok : bool)
    (fs fs' : filesystem) (r : exn + unit) :
  mkdir_or_exists name exist_ok fs = (r, fs') ->
  (r = inr tt /\ os_mkdir name fs = (inr tt, fs')) \/
  (fs' = fs /\ exists e, os_mkdir name fs = (inl e, fs) /\ is_OSError e = true /\
     ((r = inr tt /\ exist_ok = true /\ exists w, os_stat fs name = inr (Dir w)) \/
      r = inl e)) \/
  (fs' = fs /\ r = inl ValueError /\ has_nul name = true).
Proof.
  unfold mkdir_or_exists, try_except, bind, path_isdir, raise, ret.
  destruct (os_mkdir name fs) as [[e|[]] fs1] eqn:E.
  - destruct (os_mkdir_error _ _ _ _ E) as [-> [[Hn ->]|[Hn He]]].
    { simpl. intros H; inversion H; subst. auto. }
    rewrite He. destruct exist_ok; simpl.
    + destruct (os_stat fs name) as [e'|[w|]] eqn:Es; simpl;
        intros H; inversion H; subst; right; left; split; eauto 10.
    + intros H; inversion H; subst; right; left; split; eauto 10.
  - intros H; inversion H; subst. auto.
Qed.

Lemma split2_nul (name head tail : string) :
  split2 name = (head, tail) -> has_nul name = false -> has_nul head = false.
Proof.
  unfold split2. destruct (os_path_split name) as [h t] eqn:E.
  destruct (String.eqb t ""); intros H Hn.
  - eapply has_nul_head; [exact H|]. eapply has_nul_head; eauto.
  - inversion H; subst. eapply has_nul_head; eauto.
Qed.

Lemma ensure_head_cases (fuel' : nat) (head tail : string) (exist_ok : bool)
    (fs fs1 : filesystem) (r : exn + bool) :
  ensure_head fuel' head tail exist_ok fs = (r, fs1) ->
  (r = inr false /\ fs1 = fs) \/
  (head <> "" /\ tail <> "" /\ (exists e, os_stat fs head = inl e) /\
   exists r0, makedirs_rec fuel' head exist_ok fs = (r0, fs1) /\
     ((r = inr (String.eqb tail ".") /\ (r0 = inr tt \/ r0 = inl FileExistsError)) \/
      (exists e, r0 = inl e /\ r = inl e /\ is_FileExistsError e = false))).
Proof.
  unfold ensure_head, try_except, bind, path_exists, ret.
  destruct (String.eqb_spec head "") as [->|Hh]; simpl;
    [intros H; inversion H; auto|].
  destruct (String.eqb_spec tail "") as [->|Ht]; simpl;
    [intros H; inversion H; auto|].
  destruct (os_stat fs head) as [e0|n] eqn:Es; simpl;
    [|intros H; inversion H; auto].
  destruct (makedirs_rec fuel' head exist_ok fs) as [[e|[]] fs2] eqn:E.
  - destruct (is_FileExistsError e) eqn:Ee.
    + destruct e; try discriminate. intros H; inversion H; subst.
      right. repeat split; eauto 10.
    + intros H; inversion H; subst. right. repeat split; eauto 10.
  - intros H; inversion H; subst. right. repeat split; eauto 10.
Qed.

(** [makedirs] only ever adds directories. *)
Lemma makedirs_rec_extends (fuel : nat) (name : string) (exist_ok : bool)
    (fs fs' : filesystem) (r : exn + unit) :
  makedirs_rec fuel name exist_ok fs = (r, fs') -> extends fs fs'.
Proof.
  revert name fs fs' r. induction fuel as [|fuel IH]; intros name fs fs' r.
  - simpl. unfold raise. intros H; inversion H. apply extends_refl.
  - rewrite makedirs_rec_S. unfold bind at 1.
    destruct (ensure_head fuel _ _ exist_ok fs) as [[e|returned] fs1] eqn:E.
    + intros H; inversion H; subst.
      destruct (ensure_head_cases _ _ _ _ _ _ _ E) as [[? ?]|(_ & _ & _ & r0 & Hr & _)];
        [discriminate|]. eapply IH; eauto.
    + assert (Hext : extends fs fs1).
      { destruct (ensure_head_cases _ _ _ _ _ _ _ E) as [[_ ->]|(_ & _ & _ & r0 & Hr & _)];
          [apply extends_refl|]. eapply IH; eauto. }
      destruct returned.
      * unfold ret. intros H; inversion H; subst. assumption.
      * intros H. eapply extends_trans; [exact Hext|].
        destruct (mkdir_or_exists_cases _ _ _ _ _ H) as [[_ Hm]|[[-> _]|[-> _]]].
        -- eapply os_mkdir_extends; eauto.
        -- apply extends_refl.
        -- apply extends_refl.
Qed.

(** A successful [makedirs] leaves a directory at [name]. *)
Lemma makedirs_rec_isdir (fuel : nat) (name head tail : string)
    (fs fs' : filesystem) :
  os_path_split name = (head, tail) -> tail <> "" -> tail <> "." ->
  makedirs_rec fuel name true fs = (inr tt, fs') ->
  exists w, os_stat fs' name = inr (Dir w).
Proof.
  intros Hsplit Ht Hdot. destruct fuel as [|fuel]; [discriminate|].
  rewrite makedirs_rec_S, (split2_tail _ _ _ Hsplit Ht). simpl. unfold bind at 1.
  destruct (ensure_head fuel head tail true fs) as [[e|returned] fs1] eqn:E;
    [discriminate|].
  assert (Hret : returned = false).
  { destruct (ensure_head_cases _ _ _ _ _ _ _ E)
      as [[Hr _]|(_ & _ & _ & r0 & _ & [[Hr _]|(e & _ & Hr & _)])];
      inversion Hr; subst; [reflexivity|].
    apply String.eqb_neq. assumption. }
  subst returned. intros H.
  destruct (mkdir_or_exists_cases _ _ _ _ _ H)
    as [[_ Hm]|[[-> (e & _ & _ & [(_ & _ & Hs)|Hr])]|(_ & Hr & _)]].
  - exists true. eapply os_mkdir_ok_isdir; eauto.
  - exact Hs.
  - discriminate.
  - discriminate.
Qed.

(** [makedirs(name, exist_ok=True)] on a directory that is there: success,
    and nothing changes. *)
Lemma makedirs_rec_existing (fuel : nat) (name head tail : string)
    (fs : filesystem) (w : bool) :
  os_path_split name = (head, tail) -> tail <> "" ->
  os_stat fs name = inr (Dir w) ->
  makedirs_rec (S fuel) name true fs = (inr tt, fs).
Proof.
  intros Hsplit Ht Hs.
  rewrite makedirs_rec_S, (split2_tail _ _ _ Hsplit Ht). simpl. unfold bind at 1.
  assert (E : ensure_head fuel head tail true fs = (inr false, fs)).
  { unfold ensure_head, bind, path_exists, ret.
    destruct (String.eqb_spec head "") as [->|Hh]; simpl; [reflexivity|].
    apply String.eqb_neq in Ht as Ht'. rewrite Ht'. simpl.
    destruct (os_stat_head _ _ _ Hsplit Ht _ _ Hh Hs) as [w' ->].
    reflexivity. }
  rewrite E. unfold mkdir_or_exists, try_except, bind, path_isdir, ret.
  destruct (os_mkdir_existing _ _ _ Hsplit Ht _ _ Hs) as [e He].
  rewrite He. destruct (os_mkdir_error _ _ _ _ He) as [_ [[Hn _]|[_ ->]]].
  { rewrite (os_stat_ok_nul _ _ _ Hs) in Hn. discriminate. }
  rewrite Hs. reflexivity.
Qed.

(** ** [os.path.join] with a plain last name *)

Lemma rcut_no_char (c : ascii) (b : string) :
  Str.has_char c b = false -> Str.rcut c b = ("", b).
Proof.
  induction b as [|d b IH]; simpl; [reflexivity|].
  intros H. apply orb_false_iff in H as [Hd Hb].
  rewrite (IH Hb), Hd. reflexivity.
Qed.

Lemma rcut_app (c : ascii) (a b : string) :
  a = "" \/ Str.endswith c a = true -> Str.has_char c b = false ->
  Str.rcut c (a +:+ b) = (a, b).
Proof.
  intros Ha Hb. induction a as [|d a IH].
  - apply rcut_no_char. assumption.
  - rewrite str_app_cons. simpl. destruct a as [|e a].
    + destruct Ha as [Ha|Ha]; [discriminate|]. simpl in Ha.
      rewrite str_app_nil_l, (rcut_no_char _ _ Hb), Ha. reflexivity.
    + rewrite IH.
      * destruct (Ascii.eqb d c); reflexivity.
      * right. destruct Ha as [Ha|Ha]; [discriminate|].
        rewrite endswith_cons in Ha by discriminate. assumption.
Qed.

Lemma endswith_snoc (c : ascii) (a : string) :
  Str.endswith c (a +:+ String c "") = true.
Proof.
  rewrite endswith_app by discriminate. simpl. apply Ascii.eqb_refl.
Qed.

(** [os.path.join(a, b)] is some [a'] followed by [b], where [a'] is empty or
    ends with the separator. *)
Lemma os_path_join_shape (a b : string) :
  Str.startswith sep b = false ->
  exists a', os_path_join a b = a' +:+ b /\ (a' = "" \/ Str.endswith sep a' = true).
Proof.
  intros Hb. unfold os_path_join. rewrite Hb.
  destruct (String.eqb_spec a "") as [->|Ha]; simpl.
  - exists "". auto.
  - destruct (Str.endswith sep a) eqn:E.
    + exists a. auto.
    + exists (a +:+ "/"). rewrite str_app_assoc. split; [reflexivity|].
      right. apply endswith_snoc.
Qed.

Lemma os_path_split_join (a b : string) :
  Str.has_char sep b = false ->
  exists head, os_path_split (os_path_join a b) = (head, b).
Proof.
  intros Hb.
  assert (Hs : Str.startswith sep b = false).
  { destruct b as [|x b]; [reflexivity|]. simpl in *.
    apply orb_false_iff in Hb as [Hb _]. exact Hb. }
  destruct (os_path_join_shape a b Hs) as (a' & -> & Ha').
  unfold os_path_split. rewrite (rcut_app _ _ _ Ha' Hb).
  match goal with |- context [if ?t then _ else _] => destruct t end; eauto.
Qed.

Lemma firmware_split (a : string) :
  exists head, os_path_split (os_path_join a "firmware") = (head, "firmware").
Proof. apply os_path_split_join. reflexivity. Qed.

(** ** Absolute paths made of clean names *)

Lemma clean_spec (c : string) :
  clean c = true <->
  plain c = true /\ Str.has_char sep c = false /\ has_nul c = false /\ too_long c = false.
Proof.
  unfold clean. rewrite !andb_true_iff, !negb_true_iff. tauto.
Qed.

Lemma clean_plain (c : string) : clean c = true -> plain c = true.
Proof. intros H. apply clean_spec in H. tauto. Qed.

Lemma clean_no_sep (c : string) : clean c = true -> Str.has_char sep c = false.
Proof. intros H. apply clean_spec in H. tauto. Qed.

Lemma clean_no_nul (c : string) : clean c = true -> has_nul c = false.
Proof. intros H. apply clean_spec in H. tauto. Qed.

Lemma clean_short (c : string) : clean c = true -> too_long c = false.
Proof. intros H. apply clean_spec in H. tauto. Qed.

Lemma clean_nonempty (c : string) : clean c = true -> c <> "".
Proof. intros H ->. discriminate. Qed.

Lemma slashed_snoc (cs : list string) (c : string) :
  slashed (cs ++ [c]) = slashed cs +:+ "/" +:+ c.
Proof.
  induction cs as [|x cs IH]; simpl.
  - rewrite str_app_nil_r. reflexivity.
  - rewrite IH. str_simpl. rewrite !str_app_assoc. reflexivity.
Qed.

Lemma split_slashed (cs : list string) (c : string) :
  Forall (fun x => clean x = true) cs -> Str.has_char sep c = false ->
  Str.split sep (c +:+ slashed cs) = c :: cs.
Proof.
  intros Hcs. revert c. induction Hcs as [|x cs Hx _ IH]; intros c Hc; simpl.
  - rewrite str_app_nil_r. apply split_no_char. assumption.
  - change ("/" +:+ x +:+ slashed cs) with (String sep (x +:+ slashed cs)).
    rewrite split_app, split_no_char by assumption.
    rewrite IH by (apply clean_no_sep; assumption). reflexivity.
Qed.

Lemma split_path_of (cs : list string) :
  Forall (fun x => clean x = true) cs -> cs <> [] ->
  Str.split sep (path_of cs) = "" :: cs.
Proof.
  intros Hcs Hne. destruct cs as [|x cs]; [congruence|].
  inversion Hcs; subst.
  change (Str.split sep (path_of (x :: cs)))
    with ("" :: Str.split sep (x +:+ slashed cs)).
  rewrite split_slashed; auto using clean_no_sep.
Qed.

Lemma startswith_path_of (cs : list string) : Str.startswith sep (path_of cs) = true.
Proof. destruct cs; reflexivity. Qed.

Lemma endswith_slashed (cs : list string) :
  Forall (fun x => clean x = true) cs -> Str.endswith sep (slashed cs) = false.
Proof.
  induction cs as [|c cs IH] using rev_ind; [reflexivity|].
  intros H. apply Forall_app in H as [_ Hc]. inversion Hc; subst.
  rewrite slashed_snoc, <- str_app_assoc, endswith_app by (apply clean_nonempty; assumption).
  destruct (Str.endswith sep c) eqn:E; [|reflexivity].
  apply endswith_has_char in E. rewrite clean_no_sep in E by assumption. discriminate.
Qed.

Lemma rstrip_app_sep (c : ascii) (x : string) :
  Str.rstrip c (x +:+ String c "") = Str.rstrip c x.
Proof.
  induction x as [|d x IH]; str_simpl; simpl.
  - rewrite Ascii.eqb_refl. reflexivity.
  - rewrite IH. reflexivity.
Qed.

Lemma os_path_split_path_of (cs : list string) (c : string) :
  Forall (fun x => clean x = true) cs -> clean c = true ->
  os_path_split (path_of (cs ++ [c])) = (path_of cs, c).
Proof.
  intros Hcs Hc.
  assert (Hp : path_of (cs ++ [c]) = (slashed cs +:+ "/") +:+ c).
  { destruct cs; simpl; [rewrite str_app_nil_r; reflexivity|].
    rewrite slashed_snoc. str_simpl. rewrite !str_app_assoc. reflexivity. }
  rewrite Hp. unfold os_path_split.
  rewrite rcut_app; [|right; apply endswith_snoc|apply clean_no_sep; assumption].
  destruct cs as [|x cs]; [reflexivity|].
  assert (Hr : Str.rstrip sep (slashed (x :: cs) +:+ "/") = slashed (x :: cs)).
  { rewrite rstrip_app_sep. apply rstrip_id, endswith_slashed. assumption. }
  destruct (String.eqb_spec (slashed (x :: cs) +:+ "/") "") as [E|_].
  { apply str_app_empty in E as [_ E]. discriminate. }
  destruct (String.eqb_spec (slashed (x :: cs) +:+ "/")
              (Str.repeat sep (String.length (slashed (x :: cs) +:+ "/")))) as [E|_].
  { rewrite E, rstrip_repeat in Hr. discriminate. }
  simpl negb. simpl andb. cbv iota. rewrite Hr. reflexivity.
Qed.

Lemma os_path_join_path_of (cs : list string) (c : string) :
  Forall (fun x => clean x = true) cs -> clean c = true ->
  os_path_join (path_of cs) c = path_of (cs ++ [c]).
Proof.
  intros Hcs Hc. unfold os_path_join.
  assert (Hs : Str.startswith sep c = false).
  { pose proof (clean_no_sep _ Hc) as H. destruct c as [|x c]; [reflexivity|].
    simpl in *. apply orb_false_iff in H as [H _]. exact H. }
  rewrite Hs. destruct cs as [|x cs].
  { change (path_of ([] ++ [c])) with ("/" +:+ c +:+ "").
    rewrite str_app_nil_r. reflexivity. }
  change (path_of (x :: cs)) with (slashed (x :: cs)).
  change (path_of ((x :: cs) ++ [c])) with (slashed ((x :: cs) ++ [c])).
  rewrite (endswith_slashed (x :: cs)) by assumption.
  destruct (String.eqb_spec (slashed (x :: cs)) "") as [E|_]; [discriminate|].
  simpl orb. cbv iota. rewrite slashed_snoc. reflexivity.
Qed.

Lemma walk_plain (m : gmap (list string) node) (cur cs : list string) :
  Forall (fun x => clean x = true) cs ->
  (forall i, i < List.length cs -> exists w, m !! (cur ++ take i cs) = Some (Dir w)) ->
  walk m cur cs = inr (cur ++ cs).
Proof.
  intros Hcs. revert cur. induction Hcs as [|x cs Hx _ IH]; intros cur Hd; simpl.
  - rewrite app_nil_r. reflexivity.
  - destruct (Hd 0) as [w Hw]; [simpl; lia|]. simpl in Hw. rewrite app_nil_r in Hw.
    rewrite Hw, (clean_short _ Hx), step_plain by (apply clean_plain; assumption).
    rewrite IH; [rewrite <- app_assoc; reflexivity|].
    intros i Hi. destruct (Hd (S i)) as [w' Hw']; [simpl; lia|].
    exists w'. rewrite <- app_assoc. exact Hw'.
Qed.

Lemma walk_abs (m : gmap (list string) node) (cs : list string) :
  Forall (fun x => clean x = true) cs -> all_dirs m cs ->
  walk m [] ("" :: cs) = inr cs.
Proof.
  intros Hcs Hd. simpl. destruct (Hd 0) as [w Hw]; [lia|]. simpl in Hw.
  rewrite take_0 in Hw. rewrite Hw, ?too_long_empty.
  change (step [] "") with (@nil string).
  rewrite walk_plain; [reflexivity|exact Hcs|].
  intros i Hi. apply Hd. lia.
Qed.

Lemma has_nul_slashed (cs : list string) :
  Forall (fun x => clean x = true) cs -> has_nul (slashed cs) = false.
Proof.
  induction 1 as [|x cs Hx _ IH]; [reflexivity|].
  change (slashed (x :: cs)) with (String sep (x +:+ slashed cs)).
  change (has_nul (String sep (x +:+ slashed cs))) with (has_nul (x +:+ slashed cs)).
  rewrite has_nul_app, IH, (clean_no_nul _ Hx). reflexivity.
Qed.

Lemma has_nul_path_of (cs : list string) :
  Forall (fun x => clean x = true) cs -> has_nul (path_of cs) = false.
Proof.
  intros H. destruct cs as [|x cs]; [reflexivity|]. apply (has_nul_slashed _ H).
Qed.

Lemma add_dirs_snoc (base ms : list string) (c : string) (m : gmap (list string) node) :
  add_dirs base (ms ++ [c]) m = <[base ++ ms ++ [c] := Dir true]> (add_dirs base ms m).
Proof.
  revert base m. induction ms as [|x ms IH]; intros base m; simpl; [reflexivity|].
  rewrite IH, <- app_assoc. reflexivity.
Qed.

Lemma add_dirs_short (base ms k : list string) (m : gmap (list string) node) :
  List.length k <= List.length base -> add_dirs base ms m !! k = m !! k.
Proof.
  revert base m. induction ms as [|x ms IH]; intros base m Hk; simpl; [reflexivity|].
  rewrite IH by (rewrite length_app; simpl; lia).
  apply lookup_insert_ne. intros E. subst k. rewrite length_app in Hk. simpl in Hk. lia.
Qed.

Lemma add_dirs_long (base ms k : list string) (m : gmap (list string) node) :
  List.length base + List.length ms < List.length k ->
  add_dirs base ms m !! k = m !! k.
Proof.
  revert base m. induction ms as [|x ms IH]; intros base m Hk; simpl; [reflexivity|].
  simpl in Hk. rewrite IH by (rewrite length_app; simpl; lia).
  apply lookup_insert_ne. intros E. subst k. rewrite length_app in Hk. simpl in Hk. lia.
Qed.

Lemma add_dirs_new (base ms : list string) (i : nat) (m : gmap (list string) node) :
  0 < i <= List.length ms -> add_dirs base ms m !! (base ++ take i ms) = Some (Dir true).
Proof.
  revert base m i. induction ms as [|x ms IH]; intros base m i Hi; simpl in *; [lia|].
  destruct i as [|i]; [lia|]. simpl.
  destruct i as [|i].
  - rewrite take_0, add_dirs_short by reflexivity. apply lookup_insert_eq.
  - change (base ++ x :: take (S i) ms) with (base ++ [x] ++ take (S i) ms).
    rewrite app_assoc. apply IH. lia.
Qed.

(** Resolution stops with [FileNotFoundError] at the first missing name. *)
Lemma walk_missing (m : gmap (list string) node) (ex ms : list string) (c : string) :
  Forall (fun x => clean x = true) (ex ++ [c]) -> all_dirs m ex ->
  m !! (ex ++ [c]) = None ->
  match walk m [] ("" :: ex ++ c :: ms) with
  | inl e => e = FileNotFoundError
  | inr d => m !! d = None
  end.
Proof.
  intros Hcl Hd Hc.
  change ("" :: ex ++ c :: ms) with (("" :: ex) ++ c :: ms).
  rewrite walk_app, walk_abs; [|apply Forall_app in Hcl as [H _]; exact H|assumption].
  simpl. destruct (Hd (List.length ex)) as [w Hw]; [lia|].
  rewrite firstn_all in Hw. rewrite Hw.
  apply Forall_app in Hcl as [_ Hcl]. inversion Hcl as [|? ? Hc' _]; subst.
  rewrite (clean_short _ Hc'), step_plain by (apply clean_plain; assumption).
  destruct ms as [|x ms]; simpl; [assumption|].
  rewrite Hc. reflexivity.
Qed.

Section CleanPaths.

Variable cs : list string.
Variable c : string.
Hypothesis Hcs : Forall (fun x => clean x = true) cs.
Hypothesis Hc : clean c = true.

Let name : string := path_of (cs ++ [c]).

Lemma parent_loc_path_of (fs : filesystem) :
  parent_loc fs name = walk (nodes fs) [] ("" :: cs).
Proof.
  unfold parent_loc, parent_comps, start, name.
  rewrite startswith_path_of, split_path_of.
  - change ("" :: cs ++ [c]) with (("" :: cs) ++ [c]).
    rewrite removelast_last. reflexivity.
  - apply Forall_app. split; [assumption|]. constructor; [assumption|constructor].
  - destruct cs; discriminate.
Qed.

Lemma has_nul_name : has_nul (path_of (cs ++ [c])) = false.
Proof.
  apply has_nul_path_of, Forall_app. split; [assumption|].
  constructor; [assumption|constructor].
Qed.

(** [os.mkdir] under a writable directory makes the one new directory. *)
Lemma os_mkdir_path_of (fs : filesystem) :
  all_dirs (nodes fs) cs -> nodes fs !! cs = Some (Dir true) ->
  nodes fs !! (cs ++ [c]) = None ->
  os_mkdir name fs =
  (inr tt, mkFs (<[cs ++ [c] := Dir true]> (nodes fs)) (cwd fs) (room fs)).
Proof.
  intros Hd Hw Hn.
  rewrite (os_mkdir_split _ _ _ (os_path_split_path_of _ _ Hcs Hc) (clean_nonempty _ Hc)).
  rewrite has_nul_name, parent_loc_path_of, walk_abs by assumption.
  rewrite Hw, (clean_plain _ Hc), (clean_short _ Hc), Hn. reflexivity.
Qed.

Lemma os_stat_path_of (fs : filesystem) :
  all_dirs (nodes fs) cs ->
  os_stat fs name =
  match nodes fs !! (cs ++ [c]) with
  | None => inl FileNotFoundError
  | Some n => inr n
  end.
Proof.
  intros Hd.
  rewrite (os_stat_split _ _ _ (os_path_split_path_of _ _ Hcs Hc) (clean_nonempty _ Hc)).
  rewrite has_nul_name, parent_loc_path_of, walk_abs by assumption.
  destruct (Hd (List.length cs)) as [w Hw]; [lia|].
  rewrite firstn_all in Hw.
  rewrite Hw, (clean_short _ Hc), step_plain by (apply clean_plain; assumption).
  reflexivity.
Qed.

End CleanPaths.

Lemma all_dirs_add (m : gmap (list string) node) (ex ms : list string) :
  all_dirs m ex -> all_dirs (add_dirs ex ms m) (ex ++ ms).
Proof.
  intros Hd i Hi. rewrite firstn_app.
  destruct (Nat.le_gt_cases i (List.length ex)) as [Hle|Hgt].
  - replace (i - List.length ex) with 0 by lia. rewrite take_0, app_nil_r.
    rewrite add_dirs_short by (rewrite length_take; lia). apply Hd. assumption.
  - rewrite firstn_all2 by lia. exists true. apply add_dirs_new.
    rewrite length_app in Hi. lia.
Qed.

Lemma add_dirs_last (m : gmap (list string) node) (ex ms : list string) :
  ms <> [] -> add_dirs ex ms m !! (ex ++ ms) = Some (Dir true).
Proof.
  intros Hne. pose proof (add_dirs_new ex ms (List.length ms) m) as H.
  rewrite firstn_all in H. apply H.
  destruct ms; [congruence|simpl; lia].
Qed.

Lemma path_of_nonempty (cs : list string) : path_of cs <> "".
Proof. destruct cs; discriminate. Qed.

Lemma os_stat_existing_path (fs : filesystem) (ex : list string) (w : bool) :
  Forall (fun x => clean x = true) ex -> all_dirs (nodes fs) ex ->
  nodes fs !! ex = Some (Dir w) -> os_stat fs (path_of ex) = inr (Dir w).
Proof.
  intros Hcl Hd Hw. destruct ex as [|c ex _] using rev_ind.
  - unfold os_stat. simpl.
    change (start fs "/") with (@nil string).
    repeat (change (step [] "") with (@nil string); rewrite ?Hw, ?too_long_empty).
    reflexivity.
  - apply Forall_app in Hcl as [Hcl Hc]. inversion Hc; subst.
    assert (Hd' : all_dirs (nodes fs) ex).
    { intros i Hi. destruct (Hd i) as [w' Hw']; [rewrite length_app; lia|].
      exists w'. rewrite <- Hw'. rewrite firstn_app.
      replace (i - List.length ex) with 0 by lia.
      rewrite take_0, app_nil_r. reflexivity. }
    rewrite os_stat_path_of, Hw by assumption. reflexivity.
Qed.

Lemma os_stat_missing_path (fs : filesystem) (ex ms : list string) (c : string) :
  Forall (fun x => clean x = true) (ex ++ c :: ms) -> all_dirs (nodes fs) ex ->
  nodes fs !! (ex ++ [c]) = None ->
  os_stat fs (path_of (ex ++ c :: ms)) = inl FileNotFoundError.
Proof.
  intros Hcl Hd Hn. unfold os_stat. rewrite (has_nul_path_of _ Hcl).
  destruct (String.eqb_spec (path_of (ex ++ c :: ms)) "") as [E|_]; [reflexivity|].
  unfold start. rewrite startswith_path_of, split_path_of;
    [|assumption|destruct ex; discriminate].
  pose proof (walk_missing (nodes fs) ex ms c) as H.
  destruct (walk (nodes fs) [] ("" :: ex ++ c :: ms)) as [e|d].
  - rewrite H; auto.
    change (c :: ms) with ([c] ++ ms) in Hcl. rewrite app_assoc in Hcl.
    apply Forall_app in Hcl as [Hcl _]. exact Hcl.
  - rewrite H; auto.
    change (c :: ms) with ([c] ++ ms) in Hcl. rewrite app_assoc in Hcl.
    apply Forall_app in Hcl as [Hcl _]. exact Hcl.
Qed.

(** [makedirs] on a path whose first names [ex] are directories, the last of
    them writable, and whose other names [ms] are all missing: it succeeds
    and makes exactly the missing directories. *)
Lemma makedirs_rec_creates (ex ms : list string) :
  forall (fs : filesystem) (fuel : nat),
    ms <> [] ->
    Forall (fun x => clean x = true) (ex ++ ms) ->
    all_dirs (nodes fs) ex ->
    nodes fs !! ex = Some (Dir true) ->
    (forall i, 0 < i <= List.length ms -> nodes fs !! (ex ++ take i ms) = None) ->
    List.length ms <= fuel ->
    makedirs_rec fuel (path_of (ex ++ ms)) true fs =
    (inr tt, mkFs (add_dirs ex ms (nodes fs)) (cwd fs) (room fs)).
Proof.
  induction ms as [|c ms IH] using rev_ind; intros fs fuel Hne Hcl Hd Hw Hmiss Hfuel;
    [congruence|].
  destruct fuel as [|fuel]; [rewrite length_app in Hfuel; simpl in Hfuel; lia|].
  rewrite app_assoc in Hcl. apply Forall_app in Hcl as [Hcl Hc].
  inversion Hc as [|? ? Hc' _]; subst.
  pose proof (os_path_split_path_of _ _ Hcl Hc') as Hsplit.
  rewrite <- app_assoc in Hsplit.
  pose proof (clean_nonempty _ Hc') as Hcne.
  rewrite makedirs_rec_S, (split2_tail _ _ _ Hsplit Hcne). simpl fst. simpl snd.
  pose (fs1 := mkFs (add_dirs ex ms (nodes fs)) (cwd fs) (room fs)).
  assert (E : ensure_head fuel (path_of (ex ++ ms)) c true fs = (inr false, fs1)).
  { unfold ensure_head, bind, path_exists, try_except, ret.
    apply String.eqb_neq in Hcne as Hcne'. rewrite Hcne'.
    pose proof (path_of_nonempty (ex ++ ms)) as Hp.
    apply String.eqb_neq in Hp. rewrite Hp. simpl.
    destruct ms as [|x ms].
    - rewrite app_nil_r in *.
      rewrite (os_stat_existing_path _ _ _ Hcl Hd Hw). simpl.
      unfold fs1. simpl. destruct fs; reflexivity.
    - rewrite os_stat_missing_path; [|assumption|assumption|].
      2:{ apply (Hmiss 1). rewrite length_app. simpl. lia. }
      simpl. rewrite IH; [| discriminate | assumption | assumption | assumption | | ].
      + replace (String.eqb c ".") with false; [reflexivity|].
        apply clean_plain in Hc'. unfold plain in Hc'.
        apply negb_true_iff in Hc'. apply orb_false_iff in Hc' as [Hc' _].
        apply orb_false_iff in Hc' as [_ Hc']. symmetry. exact Hc'.
      + intros i Hi. specialize (Hmiss i).
        rewrite firstn_app in Hmiss.
        replace (i - List.length (x :: ms)) with 0 in Hmiss by lia.
        rewrite take_0, app_nil_r in Hmiss. apply Hmiss.
        rewrite length_app. lia.
      + rewrite length_app in Hfuel. simpl in Hfuel.
        change (Datatypes.length (x :: ms)) with (S (Datatypes.length ms)). lia. }
  unfold bind at 1. rewrite E.
  unfold mkdir_or_exists, try_except.
  assert (Hm : os_mkdir (path_of ((ex ++ ms) ++ [c])) fs1 =
               (inr tt, mkFs (<[(ex ++ ms) ++ [c] := Dir true]> (nodes fs1))
                             (cwd fs1) (room fs1))).
  { apply os_mkdir_path_of; try assumption.
    - unfold fs1. simpl. apply all_dirs_add. assumption.
    - unfold fs1. simpl. destruct ms as [|x ms].
      + rewrite app_nil_r. simpl. assumption.
      + apply add_dirs_last. discriminate.
    - unfold fs1. simpl. rewrite add_dirs_long by (rewrite !length_app; simpl; lia).
      specialize (Hmiss (List.length (ms ++ [c]))).
      rewrite firstn_all, app_assoc in Hmiss. apply Hmiss.
      rewrite length_app. simpl. lia. }
  rewrite <- app_assoc in Hm. rewrite Hm.
  unfold fs1. simpl. rewrite add_dirs_snoc. reflexivity.
Qed.

(** ** The hook's directory step *)

Lemma makedirs_firmware_isdir (proj : string) (fs fs' : filesystem) :
  makedirs (os_path_join proj "firmware") true fs = (inr tt, fs') ->
  exists w, os_stat fs' (os_path_join proj "firmware") = inr (Dir w).
Proof.
  destruct (firmware_split proj) as [head Hsplit].
  apply (makedirs_rec_isdir _ _ _ _ _ _ Hsplit); discriminate.
Qed.

Lemma makedirs_firmware_existing (proj : string) (fs : filesystem) (w : bool) :
  os_stat fs (os_path_join proj "firmware") = inr (Dir w) ->
  makedirs (os_path_join proj "firmware") true fs = (inr tt, fs).
Proof.
  destruct (firmware_split proj) as [head Hsplit].
  apply (makedirs_rec_existing _ _ _ _ _ _ Hsplit). discriminate.
Qed.

Lemma makedirs_extends (name : string) (exist_ok : bool) (fs : filesystem) :
  extends fs (snd (makedirs name exist_ok fs)).
Proof.
  unfold makedirs.
  destruct (makedirs_rec (S (room fs)) name exist_ok fs) as [r fs'] eqn:E.
  eapply makedirs_rec_extends; eauto.
Qed.

(** [firmware] adds no NUL to the path. *)
Lemma has_nul_firmware_dir (w : world) :
  has_nul (firmware_dir_of w) = has_nul (PROJECT_DIR (env w)).
Proof.
  unfold firmware_dir_of, os_path_join.
  change (Str.startswith sep "firmware") with false. cbv iota.
  destruct (String.eqb (PROJECT_DIR (env w)) "" || Str.endswith sep (PROJECT_DIR (env w)));
    rewrite has_nul_app; apply orb_false_r.
Qed.

(** The hook in a project directory [ex/ms] of which [ex] exists. *)
Lemma pre_build_action_creates (w : world) (ex ms : list string) :
  PROJECT_DIR (env w) = path_of (ex ++ ms) ->
  Forall (fun x => clean x = true) (ex ++ ms) ->
  all_dirs (nodes (fs w)) ex ->
  nodes (fs w) !! ex = Some (Dir true) ->
  (forall i, 0 < i <= List.length (ms ++ ["firmware"]) ->
             nodes (fs w) !! (ex ++ take i (ms ++ ["firmware"])) = None) ->
  List.length ms <= room (fs w) ->
  fst (pre_build_action w) = inr tt /\
  fs (snd (pre_build_action w)) =
    mkFs (add_dirs ex (ms ++ ["firmware"]) (nodes (fs w))) (cwd (fs w)) (room (fs w)).
Proof.
  intros Hproj Hcl Hd Hw Hmiss Hroom.
  destruct (pre_build_action_result w) as (Hr & Hf & _). rewrite Hr, Hf.
  unfold firmware_dir_of, makedirs. rewrite Hproj.
  rewrite os_path_join_path_of by (assumption || reflexivity).
  rewrite <- app_assoc, makedirs_rec_creates; auto.
  - destruct ms; discriminate.
  - rewrite app_assoc. apply Forall_app. split; [assumption|].
    constructor; [reflexivity|constructor].
  - rewrite length_app. simpl. lia.
Qed.

Lemma os_mkdir_missing_parent (fs : filesystem) (ex ms : list string) (c x : string) :
  Forall (fun y => clean y = true) (ex ++ c :: ms) -> clean x = true ->
  all_dirs (nodes fs) ex -> nodes fs !! (ex ++ [c]) = None ->
  os_mkdir (path_of ((ex ++ c :: ms) ++ [x])) fs = (inl FileNotFoundError, fs).
Proof.
  intros Hcl Hx Hd Hn.
  rewrite (os_mkdir_split _ _ _ (os_path_split_path_of _ _ Hcl Hx) (clean_nonempty _ Hx)).
  rewrite has_nul_name, parent_loc_path_of by assumption.
  pose proof (walk_missing (nodes fs) ex ms c) as H.
  assert (Hcl' : Forall (fun y => clean y = true) (ex ++ [c])).
  { change (c :: ms) with ([c] ++ ms) in Hcl. rewrite app_assoc in Hcl.
    apply Forall_app in Hcl as [Hcl _]. exact Hcl. }
  specialize (H Hcl' Hd Hn).
  destruct (walk (nodes fs) [] ("" :: ex ++ c :: ms)) as [e|d]; rewrite H; reflexivity.
Qed.

Lemma before_rest (c : ascii) (s : string) :
  exists b, s = Str.before c s +:+ b /\ (b = "" \/ Str.startswith c b = true).
Proof.
  induction s as [|d s (b & IH & Hb)]; simpl.
  - exists "". auto.
  - destruct (Ascii.eqb d c) eqn:E.
    + exists (String d s). split; [reflexivity|]. right. exact E.
    + exists b. split; [|assumption]. rewrite str_app_cons, <- IH. reflexivity.
Qed.

(** ** Well-formed filesystems: no path is lost on the way *)

Lemma walk_error_kind (m : gmap (list string) node) (cur cs : list string) (e : exn) :
  walk m cur cs = inl e ->
  e = FileNotFoundError \/ e = NotADirectoryError \/ e = OSError_ENAMETOOLONG.
Proof.
  revert cur. induction cs as [|x cs IH]; intros cur; simpl; [discriminate|].
  destruct (m !! cur) as [[w|]|]; [destruct (too_long x); [|apply IH]| |];
    intros H; inversion H; auto.
Qed.

Lemma has_nul_repeat_sep (k : nat) : has_nul (Str.repeat sep k) = false.
Proof. induction k as [|k IH]; [reflexivity|exact IH]. Qed.

Lemma walk_empties (m : gmap (list string) node) (cur : list string) (n : nat) :
  walk m cur (replicate (S n) "") =
  match m !! cur with
  | None => inl FileNotFoundError
  | Some File => inl NotADirectoryError
  | Some (Dir _) => inr cur
  end.
Proof.
  simpl. rewrite ?too_long_empty.
  destruct (m !! cur) as [[w|]|] eqn:E; try reflexivity.
  change (step cur "") with cur. eapply walk_empties_dir; eauto.
Qed.

Lemma os_mkdir_wf (p : string) (fs fs' : filesystem) (r : exn + unit) :
  wf fs -> os_mkdir p fs = (r, fs') -> wf fs'.
Proof.
  intros (Hroot & Hcwd & Hpar). unfold os_mkdir. intros H. cbv zeta in H.
  repeat match type of H with
         | match ?x with _ => _ end = _ => destruct x eqn:?
         end; inversion H; subst; try (repeat split; assumption).
  match goal with
  | Hd : nodes fs !! ?d = Some (Dir true), Hn : nodes fs !! (?d ++ [?c]) = None |- _ =>
      rename Hd into Hdir; rename Hn into Hnew;
      assert (Hkeep : forall k n, nodes fs !! k = Some n ->
                                  <[d ++ [c] := Dir true]> (nodes fs) !! k = Some n)
  end.
  { intros k n Hk. rewrite lookup_insert_ne; [assumption|]. intros <-. congruence. }
  repeat split; simpl.
  - destruct Hroot as [w Hw]. eauto.
  - destruct Hcwd as [w Hw]. eauto.
  - intros k n Hk.
    match type of Hk with
    | <[?k0 := _]> _ !! _ = _ => destruct (decide (k0 = k)) as [<-|Hne]
    end.
    + rewrite removelast_last. eauto.
    + rewrite lookup_insert_ne in Hk by assumption.
      destruct (Hpar _ _ Hk) as [w Hw]. eauto.
Qed.

Section Lost.

Variables p head tail : string.
Hypothesis Hsplit : os_path_split p = (head, tail).

(** Resolving the parent of [p] goes the way resolving [head] goes. *)
Lemma parent_walk_cases (m : gmap (list string) node) (cur : list string) :
  head <> "" ->
  match walk m cur (Str.split sep head) with
  | inl e => walk m cur (parent_comps p) = inl e
  | inr loc =>
      match m !! loc with
      | Some (Dir _) => walk m cur (parent_comps p) = inr loc
      | Some File =>
          walk m cur (parent_comps p) = inl NotADirectoryError \/
          walk m cur (parent_comps p) = inr loc
      | None => True
      end
  end.
Proof.
  intros Hne. unfold parent_comps.
  destruct (os_path_split_shape _ _ _ Hsplit) as [Ht [H1 H2|k H1 H2 H3|k H1 H2]].
  - congruence.
  - rewrite H3, split_head_run by assumption.
    rewrite app_assoc, removelast_last, walk_app.
    destruct (walk m cur (Str.split sep head)) as [e|loc]; [reflexivity|].
    destruct k as [|k]; [destruct (m !! loc) as [[w|]|]; auto|].
    rewrite walk_empties. destruct (m !! loc) as [[w|]|]; auto.
  - rewrite H2, H1, split_run, split_repeat by assumption.
    rewrite removelast_last, !walk_empties.
    destruct (m !! cur) as [[w|]|] eqn:E; try reflexivity. rewrite E. reflexivity.
Qed.

Hypothesis Htail : tail <> "".

Lemma os_mkdir_not_lost (fs fs' : filesystem) (e : exn) :
  wf fs -> head = "" \/ found fs head ->
  os_mkdir p fs = (inl e, fs') -> e <> FileNotFoundError.
Proof.
  intros (Hroot & [wc Hcwd] & Hpar) Hhead.
  rewrite (os_mkdir_split _ _ _ Hsplit Htail). unfold parent_loc.
  destruct (has_nul p) eqn:Enul; [intros H; inversion H; discriminate|].
  assert (Hdir : forall d w, nodes fs !! d = Some (Dir w) ->
            (if negb (plain tail) then (inl FileExistsError, fs)
             else if too_long tail then (inl OSError_ENAMETOOLONG, fs)
             else match nodes fs !! (d ++ [tail]) with
                  | Some _ => (inl FileExistsError, fs)
                  | None =>
                      if w then (inr tt, mkFs (<[d ++ [tail] := Dir true]> (nodes fs))
                                              (cwd fs) (room fs))
                      else (inl PermissionError, fs)
                  end) = (inl e, fs') -> e <> FileNotFoundError).
  { intros d w _ H.
    destruct (negb (plain tail)); [inversion H; discriminate|].
    destruct (too_long tail); [inversion H; discriminate|].
    destruct (nodes fs !! (d ++ [tail])); [inversion H; discriminate|].
    destruct w; inversion H; discriminate. }
  destruct (String.eqb_spec head "") as [Hh|Hh].
  - destruct (parent_comps_bare _ _ _ Hsplit Hh) as [-> Hs].
    unfold start. rewrite Hs. simpl. rewrite Hcwd. apply Hdir with (d := cwd fs). assumption.
  - destruct Hhead as [Hhead|Hfound]; [contradiction|].
    unfold found, os_stat in Hfound. apply String.eqb_neq in Hh as Hh'.
    rewrite (has_nul_head _ _ _ Hsplit Enul), Hh' in Hfound.
    pose proof (parent_walk_cases (nodes fs) (start fs p) Hh) as Hw.
    unfold start in *. rewrite (startswith_head _ _ _ Hsplit Hh) in *.
    destruct (walk (nodes fs) _ (Str.split sep head)) as [e0|loc].
    + rewrite Hw. intros H. inversion H; subst. congruence.
    + destruct (nodes fs !! loc) as [[w|]|] eqn:El; [| |congruence].
      * rewrite Hw, El. apply Hdir with (d := loc). assumption.
      * destruct Hw as [Hw|Hw]; rewrite Hw; [|rewrite El];
          intros H; inversion H; discriminate.
Qed.

Lemma os_mkdir_exists_found (fs fs' : filesystem) :
  wf fs -> os_mkdir p fs = (inl FileExistsError, fs') -> found fs p.
Proof.
  intros (Hroot & Hcwd & Hpar).
  rewrite (os_mkdir_split _ _ _ Hsplit Htail).
  unfold found. rewrite (os_stat_split _ _ _ Hsplit Htail).
  destruct (has_nul p); [discriminate|].
  destruct (parent_loc fs p) as [e|d] eqn:Ew.
  { intros H. inversion H; subst.
    destruct (walk_error_kind _ _ _ _ Ew) as [?|[?|?]]; discriminate. }
  destruct (nodes fs !! d) as [[w|]|] eqn:Ed; try (intros H; inversion H; fail).
  destruct (too_long tail); [discriminate|].
  assert (Hstep : exists n, nodes fs !! step d tail = Some n \/
                            (plain tail = true /\ step d tail = d ++ [tail])).
  { unfold step.
    destruct (String.eqb_spec tail "") as [|_]; [contradiction|].
    destruct (String.eqb_spec tail ".") as [|Hdot]; [eauto|].
    destruct (String.eqb_spec tail "..") as [|Hdd].
    - destruct (Hpar _ _ Ed) as [w' Hw']. eauto.
    - exists File. right. split; [|reflexivity]. unfold plain.
      apply String.eqb_neq in Htail, Hdot, Hdd. rewrite Htail, Hdot, Hdd. reflexivity. }
  destruct Hstep as [n [Hn|[Hp Hs]]].
  - intros _. rewrite Hn. discriminate.
  - rewrite Hp, Hs. simpl.
    destruct (nodes fs !! (d ++ [tail])); [discriminate|].
    destruct w; intros H; inversion H.
Qed.

Lemma dot_found (fs : filesystem) :
  tail = "." -> head <> "" -> found fs head -> found fs p.
Proof.
  intros Hdot Hh Hfound. unfold found in *.
  rewrite (os_stat_split _ _ _ Hsplit Htail). unfold parent_loc.
  destruct (has_nul p) eqn:Enul; [discriminate|].
  unfold os_stat in Hfound. apply String.eqb_neq in Hh as Hh'.
  rewrite (has_nul_head _ _ _ Hsplit Enul), Hh' in Hfound.
  pose proof (parent_walk_cases (nodes fs) (start fs p) Hh) as Hw.
  unfold start in *. rewrite (startswith_head _ _ _ Hsplit Hh) in *.
  destruct (walk (nodes fs) _ (Str.split sep head)) as [e0|loc].
  - rewrite Hw. assumption.
  - destruct (nodes fs !! loc) as [[w|]|] eqn:El; [| |congruence].
    + rewrite Hw, El. subst tail. change (step loc ".") with loc.
      rewrite El. discriminate.
    + destruct Hw as [Hw|Hw]; rewrite Hw; [|rewrite El]; discriminate.
Qed.

End Lost.

(** *** Names with trailing separators *)

Lemma bind_ext {St A B : Type} (m : M St A) (k1 k2 : A -> M St B) (s : St) :
  (forall a s', k1 a s' = k2 a s') -> bind m k1 s = bind m k2 s.
Proof. intros H. unfold bind. destruct (m s) as [[e|a] s']; auto. Qed.

Lemma rstrip_app_repeat (c : ascii) (x : string) (k : nat) :
  Str.rstrip c (x +:+ Str.repeat c k) = Str.rstrip c x.
Proof.
  induction x as [|d x IH]; str_simpl.
  - apply rstrip_repeat.
  - simpl. rewrite IH. reflexivity.
Qed.

Lemma split_trailing (h : string) (k : nat) :
  Str.split sep (h +:+ Str.repeat sep (S k)) = Str.split sep h ++ replicate (S k) "".
Proof.
  change (Str.repeat sep (S k)) with (String sep (Str.repeat sep k)).
  rewrite split_app, split_repeat. reflexivity.
Qed.

Lemma startswith_app (h b : string) :
  h <> "" -> Str.startswith sep (h +:+ b) = Str.startswith sep h.
Proof. destruct h; [congruence|reflexivity]. Qed.

Lemma endswith_repeat (n : nat) : Str.endswith sep (Str.repeat sep (S n)) = true.
Proof.
  induction n as [|n IH]; [reflexivity|].
  change (Str.repeat sep (S (S n))) with (String sep (Str.repeat sep (S n))).
  rewrite endswith_cons by discriminate. exact IH.
Qed.

Lemma os_path_split_empty_tail (p head : string) :
  os_path_split p = (head, "") -> p <> "" ->
  (exists k, p = Str.repeat sep (S k) /\ head = p) \/
  (exists k, head <> "" /\ Str.endswith sep head = false /\
             p = head +:+ Str.repeat sep (S k)).
Proof.
  intros H Hp.
  destruct (os_path_split_shape _ _ _ H) as [_ [H1 H2|k H1 H2 H3|k H1 H2]].
  - congruence.
  - right. exists k. rewrite str_app_nil_r in H3. auto.
  - left. exists k. rewrite str_app_nil_r in H2. subst. auto.
Qed.

Lemma tail_nonempty (h head tail : string) :
  os_path_split h = (head, tail) -> h <> "" -> Str.endswith sep h = false ->
  tail <> "".
Proof.
  intros H Hh He ->.
  destruct (os_path_split_empty_tail _ _ H Hh) as [(k & -> & _)|(k & _ & _ & ->)].
  - rewrite endswith_repeat in He. discriminate.
  - rewrite endswith_app, endswith_repeat in He by discriminate. discriminate.
Qed.

Section Trailing.

Variable h : string.
Variable k : nat.
Hypothesis Hh : h <> "".
Hypothesis Hend : Str.endswith sep h = false.

Let name : string := h +:+ Str.repeat sep (S k).

Lemma name_nonempty : name <> "".
Proof. unfold name. intros H. apply str_app_empty in H as [H _]. contradiction. Qed.

Lemma has_nul_trailing : has_nul (h +:+ Str.repeat sep (S k)) = has_nul h.
Proof. rewrite has_nul_app, has_nul_repeat_sep. apply orb_false_r. Qed.

Lemma os_mkdir_trailing (fs : filesystem) : os_mkdir name fs = os_mkdir h fs.
Proof.
  unfold os_mkdir, start.
  pose proof name_nonempty as Hn. apply String.eqb_neq in Hn, Hh. rewrite Hn, Hh.
  unfold name. rewrite has_nul_trailing, rstrip_app_repeat, (rstrip_id _ _ Hend), startswith_app.
  - reflexivity.
  - apply String.eqb_neq. assumption.
Qed.

Lemma os_stat_trailing (fs : filesystem) :
  os_stat fs name =
  match os_stat fs h with
  | inr File => inl NotADirectoryError
  | r => r
  end.
Proof.
  unfold os_stat, start.
  pose proof name_nonempty as Hn. apply String.eqb_neq in Hn. rewrite Hn.
  apply String.eqb_neq in Hh as Hh'. rewrite Hh'.
  unfold name. rewrite has_nul_trailing.
  destruct (has_nul h); [reflexivity|].
  rewrite split_trailing, startswith_app, walk_app by assumption.
  destruct (walk (nodes fs) _ (Str.split sep h)) as [e|loc]; [reflexivity|].
  rewrite walk_empties.
  destruct (nodes fs !! loc) as [[w|]|] eqn:E; try reflexivity.
  rewrite E. reflexivity.
Qed.

Lemma found_trailing (fs : filesystem) : found fs name <-> found fs h.
Proof.
  unfold found. rewrite os_stat_trailing.
  destruct (os_stat fs h) as [e|[w|]]; split; congruence.
Qed.

Lemma os_path_split_trailing : os_path_split name = (h, "").
Proof.
  unfold os_path_split, name.
  rewrite <- (str_app_nil_r (h +:+ Str.repeat sep (S k))) at 1.
  rewrite rcut_app; [| |reflexivity].
  2:{ right. rewrite endswith_app by discriminate. apply endswith_repeat. }
  pose proof (rstrip_app_repeat sep h (S k)) as Hr.
  rewrite (rstrip_id _ _ Hend) in Hr.
  destruct (String.eqb_spec (h +:+ Str.repeat sep (S k)) "") as [E|_].
  { apply str_app_empty in E as [E _]. contradiction. }
  destruct (String.eqb_spec (h +:+ Str.repeat sep (S k))
              (Str.repeat sep (String.length (h +:+ Str.repeat sep (S k))))) as [E|_].
  { rewrite E, rstrip_repeat in Hr. congruence. }
  simpl negb. simpl andb. cbv iota. rewrite Hr. reflexivity.
Qed.

Lemma makedirs_rec_trailing (fuel : nat) (exist_ok : bool) (fs : filesystem) :
  makedirs_rec (S fuel) name exist_ok fs = makedirs_rec (S fuel) h exist_ok fs.
Proof.
  rewrite !makedirs_rec_S.
  assert (Hs : split2 name = split2 h).
  { unfold split2. rewrite os_path_split_trailing. simpl.
    destruct (os_path_split h) as [head tail] eqn:E.
    pose proof (tail_nonempty _ _ _ E Hh Hend) as Ht.
    apply String.eqb_neq in Ht. rewrite Ht. reflexivity. }
  rewrite Hs. apply bind_ext. intros returned fs1.
  destruct returned; [reflexivity|].
  unfold mkdir_or_exists, try_except. rewrite os_mkdir_trailing.
  destruct (os_mkdir h fs1) as [[e|[]] fs2]; [|reflexivity].
  destruct (is_OSError e); [|reflexivity].
  unfold bind, path_isdir. rewrite os_stat_trailing.
  destruct (os_stat fs2 h) as [e'|[w|]]; reflexivity.
Qed.

End Trailing.

Lemma makedirs_rec_root (fuel k : nat) (fs : filesystem) (w : bool) :
  nodes fs !! [] = Some (Dir w) ->
  makedirs_rec (S fuel) (Str.repeat sep (S k)) true fs = (inr tt, fs) /\
  os_stat fs (Str.repeat sep (S k)) = inr (Dir w).
Proof.
  intros Hroot.
  assert (Hstat : os_stat fs (Str.repeat sep (S k)) = inr (Dir w)).
  { unfold os_stat, start. rewrite has_nul_repeat_sep. simpl String.eqb. cbv iota.
    rewrite split_repeat, walk_empties.
    change (Str.startswith sep (Str.repeat sep (S k))) with true. cbv iota.
    rewrite Hroot, Hroot. reflexivity. }
  split; [|exact Hstat].
  assert (Hsplit : os_path_split (Str.repeat sep (S k)) = (Str.repeat sep (S k), "")).
  { unfold os_path_split.
    rewrite <- (str_app_nil_r (Str.repeat sep (S k))) at 1.
    rewrite rcut_app; [| |reflexivity].
    2:{ right. apply endswith_repeat. }
    rewrite str_length_repeat, String.eqb_refl. simpl.
    reflexivity. }
  rewrite makedirs_rec_S. unfold split2. rewrite Hsplit. simpl String.eqb. cbv iota.
  rewrite Hsplit. simpl fst. simpl snd.
  unfold ensure_head. simpl String.eqb. rewrite andb_false_r.
  unfold bind at 1. unfold ret at 1.
  unfold mkdir_or_exists, try_except, bind, path_isdir, ret.
  assert (Hm : os_mkdir (Str.repeat sep (S k)) fs = (inl FileExistsError, fs)).
  { unfold os_mkdir, start. rewrite has_nul_repeat_sep. simpl String.eqb. cbv iota.
    rewrite rstrip_repeat. simpl.
    rewrite Hroot. reflexivity. }
  rewrite Hm. change (is_OSError FileExistsError) with true. cbv beta iota.
  rewrite Hstat. reflexivity.
Qed.

(** *** The exceptions of [makedirs] *)

Lemma count_app (c : ascii) (a b : string) :
  Str.count c (a +:+ b) = Str.count c a + Str.count c b.
Proof.
  induction a as [|d a IH]; str_simpl; [reflexivity|].
  simpl. rewrite IH. lia.
Qed.

Lemma count_repeat (c : ascii) (k : nat) : Str.count c (Str.repeat c k) = k.
Proof.
  induction k as [|k IH]; [reflexivity|].
  simpl. rewrite Ascii.eqb_refl, IH. reflexivity.
Qed.

(** A cut takes a separator off the path, unless the head is the root. *)
Lemma os_path_split_count (p head tail : string) :
  os_path_split p = (head, tail) -> head <> "" ->
  Str.count sep head < Str.count sep p \/
  (exists k, head = Str.repeat sep (S k)) /\ Str.count sep head <= Str.count sep p.
Proof.
  intros H Hh.
  destruct (os_path_split_shape _ _ _ H) as [_ [H1 H2|k H1 H2 H3|k H1 H2]].
  - congruence.
  - left. rewrite H3, !count_app, count_repeat. lia.
  - right. split; [eauto|]. rewrite H2, count_app. lia.
Qed.

Lemma split2_count (name head tail : string) :
  split2 name = (head, tail) -> head <> "" ->
  Str.count sep head < Str.count sep name \/
  (exists k, head = Str.repeat sep (S k)) /\ Str.count sep head <= Str.count sep name.
Proof.
  unfold split2. destruct (os_path_split name) as [h t] eqn:E.
  destruct (String.eqb t ""); intros H Hh.
  - assert (Hne : h <> "").
    { intros ->. unfold os_path_split in H. simpl in H. inversion H; subst.
      congruence. }
    destruct (os_path_split_count _ _ _ H Hh) as [Hlt|[Hk Hle]];
      destruct (os_path_split_count _ _ _ E Hne) as [Hlt'|[_ Hle']];
      [left; lia|left; lia|right; split; [exact Hk|lia]..].
  - inversion H; subst. apply (os_path_split_count _ _ _ E Hh).
Qed.

Lemma os_path_split_root (k : nat) :
  os_path_split (Str.repeat sep (S k)) = (Str.repeat sep (S k), "").
Proof.
  unfold os_path_split.
  rewrite <- (str_app_nil_r (Str.repeat sep (S k))) at 1.
  rewrite rcut_app; [| |reflexivity].
  2:{ right. apply endswith_repeat. }
  rewrite str_length_repeat, String.eqb_refl. simpl.
  reflexivity.
Qed.

(** [makedirs] on the root calls itself no further. *)
Lemma makedirs_rec_root_eq (fuel k : nat) (exist_ok : bool) :
  makedirs_rec (S fuel) (Str.repeat sep (S k)) exist_ok =
  mkdir_or_exists (Str.repeat sep (S k)) exist_ok.
Proof.
  rewrite makedirs_rec_S. unfold split2. rewrite os_path_split_root.
  simpl String.eqb. cbv iota. rewrite os_path_split_root. simpl fst. simpl snd.
  unfold ensure_head. simpl String.eqb. rewrite andb_false_r.
  reflexivity.
Qed.

Lemma mkdir_or_exists_error (name : string) (exist_ok : bool)
    (fs fs' : filesystem) (e : exn) :
  mkdir_or_exists name exist_ok fs = (inl e, fs') ->
  is_OSError e = true \/ (e = ValueError /\ has_nul name = true).
Proof.
  intros H.
  destruct (mkdir_or_exists_cases _ _ _ _ _ H)
    as [[? _]|[[_ (e0 & _ & He & [[? _]|Hr])]|(_ & Hr & Hn)]]; try discriminate.
  - inversion Hr; subst. left. assumption.
  - inversion Hr; subst. right. auto.
Qed.

(** The exceptions of [makedirs]: an [OSError] of [os.mkdir]; [ValueError],
    for a name with a NUL only; [RecursionError], only when the calls that
    fit are no more than the name has separators. *)
Lemma makedirs_rec_error_kind (fuel : nat) (name : string) (exist_ok : bool)
    (fs fs' : filesystem) (e : exn) :
  makedirs_rec fuel name exist_ok fs = (inl e, fs') ->
  is_OSError e = true \/
  (e = ValueError /\ has_nul name = true) \/
  (e = RecursionError /\ fuel <= Str.count sep name).
Proof.
  revert name fs fs' e. induction fuel as [|fuel IH]; intros name fs fs' e.
  { simpl. unfold raise. intros H; inversion H; subst. right. right. split; [reflexivity|lia]. }
  rewrite makedirs_rec_S. unfold bind at 1.
  destruct (split2 name) as [head tail] eqn:Es2. simpl.
  destruct (ensure_head fuel head tail exist_ok fs) as [[e1|returned] fs1] eqn:E.
  - intros H; inversion H; subst.
    destruct (ensure_head_cases _ _ _ _ _ _ _ E)
      as [[? ?]|(Hh & Ht & _ & r0 & Hr & [[? _]|(e0 & -> & He & _)])];
      try discriminate.
    inversion He; subst.
    destruct (IH _ _ _ _ Hr) as [Ho|[[-> Hn]|[-> Hf]]].
    + left. exact Ho.
    + right. left. split; [reflexivity|].
      destruct (has_nul name) eqn:En; [reflexivity|].
      rewrite (split2_nul _ _ _ Es2 En) in Hn. discriminate.
    + right. right. split; [reflexivity|].
      destruct (split2_count _ _ _ Es2 Hh) as [Hlt|[[k ->] Hle]]; [lia|].
      destruct fuel as [|fuel].
      * rewrite count_repeat in Hle. lia.
      * rewrite makedirs_rec_root_eq in Hr.
        destruct (mkdir_or_exists_error _ _ _ _ _ Hr) as [Ho|[Hv _]]; discriminate.
  - destruct returned; [unfold ret; intros H; inversion H|].
    intros H.
    destruct (mkdir_or_exists_error _ _ _ _ _ H) as [Ho|Hv]; auto.
Qed.

(** The exceptions of the hook's call of [os.makedirs]. *)
Lemma makedirs_error_kind (name : string) (exist_ok : bool) (fs : filesystem) (e : exn) :
  fst (makedirs name exist_ok fs) = inl e ->
  is_OSError e = true \/
  (e = ValueError /\ has_nul name = true) \/
  (e = RecursionError /\ room fs < Str.count sep name).
Proof.
  unfold makedirs.
  destruct (makedirs_rec (S (room fs)) name exist_ok fs) as [r fs'] eqn:E.
  simpl. intros ->.
  destruct (makedirs_rec_error_kind _ _ _ _ _ _ E) as [Ho|[Hv|[-> Hf]]]; auto.
Qed.

(** *** [makedirs] never loses its way *)

Lemma ensure_head_reason (fuel : nat) (head tail : string) (exist_ok : bool)
    (fs fs1 : filesystem) (r1 : exn + bool) :
  tail <> "" ->
  ensure_head fuel head tail exist_ok fs = (r1, fs1) ->
  (r1 = inr false /\ fs1 = fs /\ (head = "" \/ found fs head)) \/
  (head <> "" /\
   exists r0, makedirs_rec fuel head exist_ok fs = (r0, fs1) /\
     (((r0 = inr tt \/ r0 = inl FileExistsError) /\ r1 = inr (String.eqb tail ".")) \/
      (exists e, r0 = inl e /\ r1 = inl e /\ is_FileExistsError e = false))).
Proof.
  intros Ht. unfold ensure_head, try_except, bind, path_exists, ret, found.
  destruct (String.eqb_spec head "") as [->|Hh]; simpl;
    [intros H; inversion H; auto|].
  apply String.eqb_neq in Ht as Ht'. rewrite Ht'. simpl.
  destruct (os_stat fs head) as [e0|n] eqn:Es; simpl.
  - destruct (makedirs_rec fuel head exist_ok fs) as [[e|[]] fs2] eqn:E.
    + destruct (is_FileExistsError e) eqn:Ee.
      * destruct e; try discriminate. intros H; inversion H; subst.
        right. split; [assumption|]. eexists. split; [reflexivity|]. left. auto.
      * intros H; inversion H; subst.
        right. split; [assumption|]. eexists. split; [reflexivity|]. right. eauto.
    + intros H; inversion H; subst.
      right. split; [assumption|]. eexists. split; [reflexivity|]. left. auto.
  - intros H; inversion H; subst. left. repeat split. right. discriminate.
Qed.

Lemma makedirs_rec_safe_step (fuel : nat) :
  (forall name fs r fs', name <> "" -> wf fs ->
      makedirs_rec fuel name true fs = (r, fs') -> safe name fs r fs') ->
  forall p head tail fs r fs',
    os_path_split p = (head, tail) -> tail <> "" -> wf fs ->
    makedirs_rec (S fuel) p true fs = (r, fs') -> safe p fs r fs'.
Proof.
  intros IH p head tail fs r fs' Hsplit Ht Hwf.
  rewrite makedirs_rec_S, (split2_tail _ _ _ Hsplit Ht). simpl fst. simpl snd.
  unfold bind at 1.
  destruct (ensure_head fuel head tail true fs) as [r1 fs1] eqn:E.
  assert (Hfinish : wf fs1 -> head = "" \/ found fs1 head ->
                    mkdir_or_exists p true fs1 = (r, fs') -> safe p fs r fs').
  { intros Hwf1 Hhead H.
    destruct (mkdir_or_exists_cases _ _ _ _ _ H)
      as [[-> Hm]|[[-> (e & Hm & _ & [(-> & _ & wr & Hs)| ->])]|(-> & -> & _)]].
    - split; [eapply os_mkdir_wf; eauto|]. split; [discriminate|].
      intros _. unfold found. rewrite (os_mkdir_ok_isdir _ _ _ Hsplit Ht _ _ Hm).
      discriminate.
    - split; [assumption|]. split; [discriminate|].
      intros _. unfold found. rewrite Hs. discriminate.
    - split; [assumption|]. split.
      + intros Heq. inversion Heq; subst.
        eapply (os_mkdir_not_lost _ _ _ Hsplit Ht); eauto.
      + intros [Heq|Heq]; [discriminate|]. inversion Heq; subst.
        eapply (os_mkdir_exists_found _ _ _ Hsplit Ht); eauto.
    - split; [assumption|]. split; [discriminate|].
      intros [Heq|Heq]; discriminate. }
  destruct (ensure_head_reason _ _ _ _ _ _ _ Ht E)
    as [(-> & -> & Hhead)|(Hh & r0 & Hrec & [[Hr0 ->]|(e & -> & -> & He)])].
  - apply Hfinish; assumption.
  - destruct (IH _ _ _ _ Hh Hwf Hrec) as (Hwf1 & _ & Hfound).
    specialize (Hfound Hr0).
    destruct (String.eqb_spec tail ".") as [Hdot|Hdot].
    + unfold ret. intros H; inversion H; subst r fs'.
      split; [assumption|]. split; [discriminate|].
      intros _. eapply dot_found; eauto.
    + apply Hfinish; auto.
  - destruct (IH _ _ _ _ Hh Hwf Hrec) as (Hwf1 & Hne & _).
    intros H; inversion H; subst.
    split; [assumption|]. split; [assumption|].
    intros [Heq|Heq]; [discriminate|]. inversion Heq; subst. discriminate.
Qed.

Lemma makedirs_rec_safe (fuel : nat) :
  forall name fs r fs', name <> "" -> wf fs ->
    makedirs_rec fuel name true fs = (r, fs') -> safe name fs r fs'.
Proof.
  induction fuel as [|fuel IH]; intros name fs r fs' Hname Hwf.
  - simpl. unfold raise. intros H; inversion H; subst.
    split; [assumption|]. split; [discriminate|].
    intros [Heq|Heq]; discriminate.
  - destruct (os_path_split name) as [head tail] eqn:Hsplit.
    destruct (String.eqb_spec tail "") as [->|Ht].
    + destruct (os_path_split_empty_tail _ _ Hsplit Hname)
        as [(k & -> & _)|(k & Hh & Hend & ->)].
      * destruct Hwf as ([w Hroot] & Hrest).
        destruct (makedirs_rec_root fuel k fs w Hroot) as [-> Hs].
        intros H; inversion H; subst.
        split; [split; eauto|]. split; [discriminate|].
        intros _. unfold found. rewrite Hs. discriminate.
      * rewrite makedirs_rec_trailing by assumption. intros H.
        destruct (os_path_split head) as [head' tail'] eqn:Hsplit'.
        pose proof (tail_nonempty _ _ _ Hsplit' Hh Hend) as Ht'.
        destruct (makedirs_rec_safe_step fuel IH _ _ _ _ _ _ Hsplit' Ht' Hwf H)
          as (Hwf' & Hne & Hfound).
        split; [assumption|]. split; [assumption|].
        intros Hr. apply found_trailing; auto.
    + apply (makedirs_rec_safe_step fuel IH _ _ _ _ _ _ Hsplit Ht Hwf).
Qed.

(** On a well-formed filesystem the hook never fails for a missing parent. *)
Lemma pre_build_action_not_lost (w : world) :
  wf (fs w) -> fst (pre_build_action w) <> inl FileNotFoundError.
Proof.
  intros Hwf. rewrite (proj1 (pre_build_action_result w)).
  assert (Hne : firmware_dir_of w <> "").
  { unfold firmware_dir_of.
    destruct (firmware_split (PROJECT_DIR (env w))) as [head Hsplit].
    intros Hempty. rewrite Hempty in Hsplit. discriminate. }
  unfold makedirs.
  destruct (makedirs_rec _ (firmware_dir_of w) true (fs w)) as [r fs'] eqn:E.
  exact (proj1 (proj2 (makedirs_rec_safe _ _ _ _ _ Hne Hwf E))).
Qed.

Lemma sample_fs_wf : wf sample_fs.
Proof.
  split; [eexists; reflexivity|]. split; [eexists; reflexivity|].
  intros k n H. unfold sample_fs in *. simpl nodes in *.
  repeat (rewrite lookup_insert in H;
          destruct (decide _) as [<-|?]; [eexists; reflexivity|]).
  rewrite lookup_empty in H. discriminate.
Defined.

(** * The claims *)

(** C1 (counterexample).  The flag [BOARD_MODEL=a=b] holds the marker and
    what follows its first [=] is [a=b], but the scanner returns [a]:
    [split("=")[1]] stops at the second [=]. *)
Lemma C1_counterexample :
  Str.contains marker "BOARD_MODEL=a=b" = true /\
  Str.after eq_char "BOARD_MODEL=a=b" = "a=b" /\
  scan_flags ["BOARD_MODEL=" +:+ "a=b"] = inr (Some "a") /\
  scan_flags ["BOARD_MODEL=" +:+ "a=b"] <> inr (Some "a=b").
Proof.
  split; [reflexivity|]. split; [reflexivity|]. split; [reflexivity|discriminate].
Qed.

(** C1 (amended).  For every build-flags list [pre ++ flag :: rest] whose
    first flag holding the marker [BOARD_MODEL=] is [flag], the scanner
    returns the text of [flag] between its first [=] and its next [=] (or the
    end of the flag); in particular, when [flag] is [BOARD_MODEL=X] and [X]
    holds no [=], it returns [X]. *)
Theorem C1_scanner_value (pre rest : list string) (flag : string)
    (Hpre : Forall no_marker pre) (Hflag : Str.contains marker flag = true) :
  (exists a b,
      flag = a +:+ "=" +:+ field_1 flag +:+ b /\
      Str.has_char eq_char a = false /\
      Str.has_char eq_char (field_1 flag) = false /\
      (b = "" \/ Str.startswith eq_char b = true)) /\
  scan_flags (pre ++ flag :: rest) = inr (Some (field_1 flag)) /\
  (forall X, Str.has_char eq_char X = false -> flag = "BOARD_MODEL=" +:+ X ->
             scan_flags (pre ++ flag :: rest) = inr (Some X)).
Proof.
  split; [|split].
  - destruct (before_rest eq_char (Str.after eq_char flag)) as (b & Hb & Hb').
    exists (Str.before eq_char flag), b. repeat split.
    + rewrite (before_after eq_char flag (marker_has_eq _ Hflag)) at 1.
      unfold field_1. rewrite Hb at 1. reflexivity.
    + apply before_no_char.
    + apply before_no_char.
    + assumption.
  - apply scan_flags_first; assumption.
  - intros X HX ->. rewrite scan_flags_first by assumption.
    unfold field_1. change (Str.after eq_char ("BOARD_MODEL=" +:+ X)) with X.
    rewrite before_id by assumption. reflexivity.
Qed.

Lemma C1_scanner_value_witness :
  scan_flags (["-DDEBUG=1"] ++ "BOARD_MODEL=esp32" :: ["BOARD_MODEL=other"]) =
  inr (Some "esp32").
Proof.
  refine (proj1 (proj2 (C1_scanner_value ["-DDEBUG=1"] ["BOARD_MODEL=other"]
                          "BOARD_MODEL=esp32" _ _))).
  - repeat constructor.
  - reflexivity.
Defined.

(** C2 (counterexample).  With the flag [BOARD_MODEL=] the scanner finds a
    board-model value, the empty string, and the hook prints nothing. *)
Lemma C2_counterexample :
  scan_flags (flags_of (sample_world ["BOARD_MODEL="] "/tmp/proj")) = inr (Some "") /\
  stdout (snd (pre_build_action (sample_world ["BOARD_MODEL="] "/tmp/proj"))) = [] /\
  stdout (snd (pre_build_action (sample_world ["BOARD_MODEL="] "/tmp/proj")))
    <> ["[Geogram] Building for board model: " +:+ ""].
Proof.
  assert (H : scan_flags (flags_of (sample_world ["BOARD_MODEL="] "/tmp/proj"))
              = inr (Some "")) by reflexivity.
  rewrite (pre_build_action_stdout _ _ H).
  split; [exact H|]. split; [reflexivity|discriminate].
Qed.

(** C2 (amended).  Whenever the scanner finds a non-empty board-model value
    [v], the hook prints exactly the line
    [[Geogram] Building for board model: v]; in particular, with the flags
    [["BOARD_MODEL=esp32"; "OTHER=1"]] it prints exactly
    [[Geogram] Building for board model: esp32]. *)
Theorem C2_log_line :
  (forall (w : world) (v : string),
      scan_flags (flags_of w) = inr (Some v) -> v <> "" ->
      stdout (snd (pre_build_action w)) =
      stdout w ++ ["[Geogram] Building for board model: " +:+ v]) /\
  (forall w : world,
      BUILD_FLAGS (env w) = Some ["BOARD_MODEL=esp32"; "OTHER=1"] ->
      stdout (snd (pre_build_action w)) =
      stdout w ++ ["[Geogram] Building for board model: esp32"]).
Proof.
  assert (H1 : forall (w : world) (v : string),
             scan_flags (flags_of w) = inr (Some v) -> v <> "" ->
             stdout (snd (pre_build_action w)) =
             stdout w ++ ["[Geogram] Building for board model: " +:+ v]).
  { intros w v Hscan Hv. rewrite (pre_build_action_stdout _ _ Hscan).
    unfold printed, truthy. apply String.eqb_neq in Hv. rewrite Hv. reflexivity. }
  split; [exact H1|].
  intros w Hflags. apply (H1 w "esp32"); [|discriminate].
  unfold flags_of. rewrite Hflags. reflexivity.
Qed.

Lemma C2_log_line_witness :
  stdout (snd (pre_build_action (sample_world ["BOARD_MODEL=esp32"; "OTHER=1"] "/tmp/proj")))
  = ["[Geogram] Building for board model: esp32"].
Proof.
  apply (proj1 C2_log_line (sample_world ["BOARD_MODEL=esp32"; "OTHER=1"] "/tmp/proj") "esp32").
  - reflexivity.
  - discriminate.
Defined.

(** C3.  When several flags hold the marker, the value comes from the first
    of them in list order: the flags after it, matching or not, are never
    looked at. *)
Theorem C3_first_flag_wins (pre rest rest' : list string) (flag : string)
    (Hpre : Forall no_marker pre) (Hflag : Str.contains marker flag = true) :
  scan_flags (pre ++ flag :: rest) = inr (Some (field_1 flag)) /\
  scan_flags (pre ++ flag :: rest) = scan_flags [flag] /\
  scan_flags (pre ++ flag :: rest) = scan_flags (pre ++ flag :: rest').
Proof.
  rewrite !scan_flags_first by assumption.
  rewrite <- (scan_flags_first [] [] flag) by (constructor || assumption).
  auto.
Qed.

Lemma C3_first_flag_wins_witness :
  scan_flags (["OTHER=1"] ++ "BOARD_MODEL=esp32" :: ["BOARD_MODEL=s3"; "BOARD_MODEL=c6"])
  = inr (Some "esp32") /\
  scan_flags (["OTHER=1"] ++ "BOARD_MODEL=esp32" :: ["BOARD_MODEL=s3"; "BOARD_MODEL=c6"])
  = scan_flags (["OTHER=1"] ++ "BOARD_MODEL=esp32" :: []).
Proof.
  assert (Hpre : Forall no_marker ["OTHER=1"]) by (repeat constructor).
  assert (Hflag : Str.contains marker "BOARD_MODEL=esp32" = true) by reflexivity.
  destruct (C3_first_flag_wins ["OTHER=1"] ["BOARD_MODEL=s3"; "BOARD_MODEL=c6"] []
              "BOARD_MODEL=esp32" Hpre Hflag) as (H1 & _ & H3).
  split; [exact H1|exact H3].
Defined.

(** C4.  When no flag holds the marker (or [BUILD_FLAGS] is not set), the
    scanner returns [None] without raising, nothing is printed, and the hook
    is its directory step alone: it returns normally whenever [os.makedirs]
    does. *)
Theorem C4_no_marker (w : world) (Hnone : Forall no_marker (flags_of w)) :
  scan_flags (flags_of w) = inr None /\
  stdout (snd (pre_build_action w)) = stdout w /\
  pre_build_action w = on_fs (makedirs (firmware_dir_of w) true) w /\
  (forall fs', makedirs (firmware_dir_of w) true (fs w) = (inr tt, fs') ->
               fst (pre_build_action w) = inr tt).
Proof.
  pose proof (scan_flags_none _ Hnone) as Hscan.
  split; [assumption|]. split; [|split].
  - rewrite (pre_build_action_stdout _ _ Hscan). apply app_nil_r.
  - rewrite (pre_build_action_eq _ _ Hscan). unfold logged, printed. simpl.
    rewrite app_nil_r. destruct w; reflexivity.
  - intros fs' H. rewrite (proj1 (pre_build_action_result w)), H. reflexivity.
Qed.

Lemma C4_no_marker_witness :
  scan_flags (flags_of (sample_world ["OTHER=1"; "-DMODEL=x"] "/tmp/proj")) = inr None /\
  stdout (snd (pre_build_action (sample_world ["OTHER=1"; "-DMODEL=x"] "/tmp/proj"))) = [] /\
  fst (pre_build_action (sample_world ["OTHER=1"; "-DMODEL=x"] "/tmp/proj")) = inr tt.
Proof.
  assert (Hnone : Forall no_marker (flags_of (sample_world ["OTHER=1"; "-DMODEL=x"] "/tmp/proj")))
    by (repeat constructor).
  destruct (C4_no_marker _ Hnone) as (H1 & H2 & _ & H4).
  split; [exact H1|]. split; [exact H2|].
  eapply H4. vm_compute. reflexivity.
Defined.

(** C5.  The hook's output directory is [os.path.join] of the project
    directory and [firmware] (the project directory, a [/] unless it is empty
    or ends with one, and [firmware]); whenever the hook returns normally
    that path is a directory afterwards; in particular, when [/tmp/proj] is a
    writable directory without a [firmware] entry, the hook returns normally
    and [/tmp/proj/firmware] is a directory afterwards. *)
Theorem C5_firmware_dir_exists (w : world) :
  firmware_dir_of w =
    (if String.eqb (PROJECT_DIR (env w)) "" || Str.endswith sep (PROJECT_DIR (env w))
     then PROJECT_DIR (env w) +:+ "firmware"
     else PROJECT_DIR (env w) +:+ "/" +:+ "firmware") /\
  pre_build_action w =
    on_fs (makedirs (firmware_dir_of w) true)
          (mkWorld (env w) (stdout (snd (pre_build_action w))) (fs w)) /\
  (fst (pre_build_action w) = inr tt ->
   fst (path_isdir (firmware_dir_of w) (fs (snd (pre_build_action w)))) = inr true) /\
  (PROJECT_DIR (env w) = "/tmp/proj" ->
   all_dirs (nodes (fs w)) ["tmp"; "proj"] ->
   nodes (fs w) !! ["tmp"; "proj"] = Some (Dir true) ->
   nodes (fs w) !! ["tmp"; "proj"; "firmware"] = None ->
   fst (path_exists "/tmp/proj/firmware" (fs w)) = inr false /\
   fst (pre_build_action w) = inr tt /\
   fst (path_isdir "/tmp/proj/firmware" (fs (snd (pre_build_action w)))) = inr true).
Proof.
  destruct (pre_build_action_result w) as (Hr & Hf & _).
  assert (Hisdir : fst (pre_build_action w) = inr tt ->
                   fst (path_isdir (firmware_dir_of w) (fs (snd (pre_build_action w))))
                   = inr true).
  { rewrite Hr, Hf. unfold firmware_dir_of.
    destruct (makedirs _ true (fs w)) as [r fs'] eqn:E. simpl. intros ->.
    destruct (makedirs_firmware_isdir _ _ _ E) as [wr Hs].
    unfold path_isdir. simpl. rewrite Hs. reflexivity. }
  split; [reflexivity|]. split; [|split; [exact Hisdir|]].
  - destruct (scan_flags_total (flags_of w)) as [bm Hscan].
    rewrite (pre_build_action_stdout _ _ Hscan).
    apply (pre_build_action_eq _ _ Hscan).
  - intros Hproj Hd Hw Hn.
    assert (Hfw : firmware_dir_of w = "/tmp/proj/firmware").
    { unfold firmware_dir_of. rewrite Hproj. reflexivity. }
    destruct (pre_build_action_creates w ["tmp"; "proj"] []) as [Hok _]; auto.
    { repeat constructor. }
    { intros i Hi. simpl in Hi. assert (i = 1) as -> by lia. exact Hn. }
    { simpl. lia. }
    split; [|split; [exact Hok|]].
    + unfold path_exists.
      change "/tmp/proj/firmware" with (path_of (["tmp"; "proj"] ++ ["firmware"])).
      rewrite os_stat_path_of; [|repeat constructor|reflexivity|assumption].
      change (["tmp"; "proj"] ++ ["firmware"]) with ["tmp"; "proj"; "firmware"].
      rewrite Hn. reflexivity.
    + rewrite <- Hfw. apply Hisdir. exact Hok.
Qed.

Lemma sample_fs_all_dirs : all_dirs (nodes sample_fs) ["tmp"; "proj"].
Proof.
  intros i Hi. destruct i as [|[|[|i]]]; [eexists; reflexivity..|simpl in Hi; lia].
Defined.

Lemma C5_firmware_dir_exists_witness :
  fst (path_exists "/tmp/proj/firmware" sample_fs) = inr false /\
  fst (pre_build_action (sample_world ["BOARD_MODEL=esp32"] "/tmp/proj")) = inr tt /\
  fst (path_isdir "/tmp/proj/firmware"
         (fs (snd (pre_build_action (sample_world ["BOARD_MODEL=esp32"] "/tmp/proj")))))
  = inr true.
Proof.
  destruct (C5_firmware_dir_exists (sample_world ["BOARD_MODEL=esp32"] "/tmp/proj"))
    as (_ & _ & _ & H).
  apply H.
  - reflexivity.
  - exact sample_fs_all_dirs.
  - reflexivity.
  - reflexivity.
Defined.

(** C6.  After a run of the hook that returned normally, the directory
    ensurer run again on the same path succeeds and leaves the filesystem as
    it is, and so does a second run of the hook; more generally the ensurer
    succeeds, changing nothing, whenever its path is already a directory. *)
Theorem C6_ensurer_idempotent (w : world)
    (Hok : fst (pre_build_action w) = inr tt) :
  makedirs (firmware_dir_of w) true (fs (snd (pre_build_action w)))
    = (inr tt, fs (snd (pre_build_action w))) /\
  fst (pre_build_action (snd (pre_build_action w))) = inr tt /\
  fs (snd (pre_build_action (snd (pre_build_action w)))) = fs (snd (pre_build_action w)) /\
  (forall (fs0 : filesystem) (wr : bool),
      os_stat fs0 (firmware_dir_of w) = inr (Dir wr) ->
      makedirs (firmware_dir_of w) true fs0 = (inr tt, fs0)).
Proof.
  destruct (pre_build_action_result w) as (Hr & Hf & He).
  assert (Hagain : makedirs (firmware_dir_of w) true (fs (snd (pre_build_action w)))
                   = (inr tt, fs (snd (pre_build_action w)))).
  { rewrite Hr in Hok. rewrite Hf. unfold firmware_dir_of in *.
    destruct (makedirs _ true (fs w)) as [r fs'] eqn:E. simpl in *. subst r.
    destruct (makedirs_firmware_isdir _ _ _ E) as [wr Hs].
    eapply makedirs_firmware_existing; eauto. }
  split; [exact Hagain|].
  destruct (pre_build_action_result (snd (pre_build_action w))) as (Hr' & Hf' & _).
  assert (Hdir : firmware_dir_of (snd (pre_build_action w)) = firmware_dir_of w).
  { unfold firmware_dir_of. rewrite He. reflexivity. }
  rewrite Hr', Hf', Hdir, Hagain. simpl.
  split; [reflexivity|]. split; [reflexivity|].
  intros fs0 wr. apply makedirs_firmware_existing.
Qed.

Lemma C6_ensurer_idempotent_witness :
  fst (pre_build_action (snd (pre_build_action (sample_world ["BOARD_MODEL=esp32"] "/tmp/proj"))))
  = inr tt /\
  fs (snd (pre_build_action (snd (pre_build_action (sample_world ["BOARD_MODEL=esp32"] "/tmp/proj")))))
  = fs (snd (pre_build_action (sample_world ["BOARD_MODEL=esp32"] "/tmp/proj"))).
Proof.
  assert (Hok : fst (pre_build_action (sample_world ["BOARD_MODEL=esp32"] "/tmp/proj")) = inr tt)
    by (vm_compute; reflexivity).
  destruct (C6_ensurer_idempotent _ Hok) as (_ & H2 & H3 & _).
  split; [exact H2|exact H3].
Defined.




(** C8.  When the first flag holding the marker yields an empty value (as
    the flag [BOARD_MODEL=] does), the scan stops at that flag with the empty
    string, whatever flags follow, and the hook prints nothing, as it does
    for an absent value. *)
Theorem C8_empty_value (w : world) (pre rest : list string) (flag : string)
    (Hflags : flags_of w = pre ++ flag :: rest)
    (Hpre : Forall no_marker pre)
    (Hflag : Str.contains marker flag = true)
    (Hempty : field_1 flag = "") :
  scan_flags (flags_of w) = inr (Some "") /\
  stdout (snd (pre_build_action w)) = stdout w /\
  printed (Some "") = printed None /\
  field_1 "BOARD_MODEL=" = "".
Proof.
  assert (Hscan : scan_flags (flags_of w) = inr (Some "")).
  { rewrite Hflags, scan_flags_first, Hempty by assumption. reflexivity. }
  split; [exact Hscan|]. split; [|split; reflexivity].
  rewrite (pre_build_action_stdout _ _ Hscan). apply app_nil_r.
Qed.

Lemma C8_empty_value_witness :
  scan_flags ["OTHER=1"; "BOARD_MODEL="; "BOARD_MODEL=esp32"] = inr (Some "") /\
  stdout (snd (pre_build_action
                 (sample_world ["OTHER=1"; "BOARD_MODEL="; "BOARD_MODEL=esp32"] "/tmp/proj")))
  = [].
Proof.
  assert (Hpre : Forall no_marker ["OTHER=1"]) by (repeat constructor).
  destruct (C8_empty_value
              (sample_world ["OTHER=1"; "BOARD_MODEL="; "BOARD_MODEL=esp32"] "/tmp/proj")
              ["OTHER=1"] ["BOARD_MODEL=esp32"] "BOARD_MODEL="
              eq_refl Hpre eq_refl eq_refl) as (H1 & H2 & _).
  split; [exact H1|exact H2].
Defined.

(** C9.  Let the project directory be [/ex/ms], made of names that are not
    empty, [.] or [..], hold no [/] and no NUL and are of at most [NAME_MAX]
    bytes, with the firmware path shorter than [PATH_MAX]; let the
    directories [ex] exist, the last of them writable, and none of the names
    [ms] exist below them; and let the interpreter have room for as many
    nested calls of [os.makedirs] as there are missing names [ms].  The hook
    returns normally and makes every missing directory on the way to
    [<project_dir>/firmware], so that all of them are directories
    afterwards; when the project directory itself is missing ([ms] is not
    empty), a bare [os.mkdir] of the firmware directory would have failed
    with [FileNotFoundError].  And whatever the project directory is, on a
    well-formed filesystem (without symbolic links, as every filesystem
    here) the hook never fails with [FileNotFoundError]. *)
Theorem C9_missing_parents :
  (forall (w : world) (ex ms : list string),
      PROJECT_DIR (env w) = path_of (ex ++ ms) ->
      Forall (fun x => clean x = true) (ex ++ ms) ->
      String.length (firmware_dir_of w) < PATH_MAX ->
      List.length ms <= room (fs w) ->
      all_dirs (nodes (fs w)) ex ->
      nodes (fs w) !! ex = Some (Dir true) ->
      (forall i, 0 < i <= List.length (ms ++ ["firmware"]) ->
                 nodes (fs w) !! (ex ++ take i (ms ++ ["firmware"])) = None) ->
      fst (pre_build_action w) = inr tt /\
      fs (snd (pre_build_action w)) =
        mkFs (add_dirs ex (ms ++ ["firmware"]) (nodes (fs w)))
             (cwd (fs w)) (room (fs w)) /\
      all_dirs (nodes (fs (snd (pre_build_action w)))) (ex ++ ms ++ ["firmware"]) /\
      (ms <> [] ->
       fst (path_exists (PROJECT_DIR (env w)) (fs w)) = inr false /\
       os_mkdir (firmware_dir_of w) (fs w) = (inl FileNotFoundError, fs w))) /\
  (forall w : world,
      wf (fs w) -> fst (pre_build_action w) <> inl FileNotFoundError).
Proof.
  split; [|exact pre_build_action_not_lost].
  intros w ex ms Hproj Hclean Hlen Hroom Hdirs Hwritable Hmissing.
  destruct (pre_build_action_creates w ex ms Hproj Hclean Hdirs Hwritable Hmissing Hroom)
    as [Hok Hfs].
  split; [exact Hok|]. split; [exact Hfs|]. split.
  - rewrite Hfs. simpl. apply all_dirs_add. assumption.
  - intros Hne. destruct ms as [|c ms]; [congruence|].
    assert (Hc : nodes (fs w) !! (ex ++ [c]) = None).
    { apply (Hmissing 1). simpl. lia. }
    split.
    + unfold path_exists. rewrite Hproj, os_stat_missing_path by assumption.
      reflexivity.
    + unfold firmware_dir_of. rewrite Hproj.
      rewrite os_path_join_path_of by (assumption || reflexivity).
      apply os_mkdir_missing_parent; (assumption || reflexivity).
Qed.

Lemma C9_missing_parents_witness :
  fst (path_exists "/tmp/build/geogram" sample_fs) = inr false /\
  fst (pre_build_action (sample_world ["OTHER=1"] "/tmp/build/geogram")) = inr tt /\
  nodes (fs (snd (pre_build_action (sample_world ["OTHER=1"] "/tmp/build/geogram"))))
    !! ["tmp"; "build"; "geogram"; "firmware"] = Some (Dir true) /\
  nodes (fs (snd (pre_build_action (sample_world ["OTHER=1"] "/tmp/build/geogram"))))
    !! ["tmp"; "build"; "geogram"] = Some (Dir true) /\
  nodes (fs (snd (pre_build_action (sample_world ["OTHER=1"] "/tmp/build/geogram"))))
    !! ["tmp"; "build"] = Some (Dir true) /\
  fst (pre_build_action (sample_world ["OTHER=1"] "../etc/passwd/x//"))
    <> inl FileNotFoundError.
Proof.
  assert (Hd : all_dirs (nodes sample_fs) ["tmp"]).
  { intros i Hi. destruct i as [|[|i]]; [eexists; reflexivity..|simpl in Hi; lia]. }
  assert (Hm : forall i, 0 < i <= List.length (["build"; "geogram"] ++ ["firmware"]) ->
                 nodes sample_fs !! (["tmp"] ++ take i (["build"; "geogram"] ++ ["firmware"]))
                 = None).
  { intros i Hi. destruct i as [|[|[|[|i]]]]; [lia|reflexivity..|simpl in Hi; lia]. }
  destruct C9_missing_parents as [Hcreate Hlost].
  assert (Hlen : String.length
                   (firmware_dir_of (sample_world ["OTHER=1"] "/tmp/build/geogram"))
                 < PATH_MAX).
  { vm_compute. lia. }
  assert (Hroom : List.length ["build"; "geogram"] <= room sample_fs).
  { vm_compute. lia. }
  destruct (Hcreate (sample_world ["OTHER=1"] "/tmp/build/geogram")
              ["tmp"] ["build"; "geogram"] eq_refl
              ltac:(repeat constructor) Hlen Hroom Hd eq_refl Hm) as (H1 & H2 & _ & H4).
  destruct H4 as [H4 _]; [discriminate|].
  split; [exact H4|]. split; [exact H1|].
  rewrite H2. split; [reflexivity|]. split; [reflexivity|]. split; [reflexivity|].
  apply Hlost. exact sample_fs_wf.
Defined.

(** The line is on the console although [os.makedirs] then fails. *)
Example log_line_before_failure :
  pre_build_action (sample_world ["BOARD_MODEL=esp32"] "/ro") =
  (inl PermissionError,
   mkWorld (mkEnv (Some ["BOARD_MODEL=esp32"]) "/ro")
           ["[Geogram] Building for board model: esp32"] sample_fs).
Proof. vm_compute. reflexivity. Qed.

(** C10.  The hook leaves the construction environment (the build flags and
    the project directory) as it is; it prints at most one line; on the
    filesystem it only adds directories; and the line is printed before
    [os.makedirs] is called, which starts in a world that already holds the
    line and prints nothing, so the line is there whatever that call
    returns. *)
Theorem C10_frame (w : world) :
  env (snd (pre_build_action w)) = env w /\
  extends (fs w) (fs (snd (pre_build_action w))) /\
  exists board_model,
    scan_flags (flags_of w) = inr board_model /\
    List.length (printed board_model) <= 1 /\
    stdout (snd (pre_build_action w)) = stdout w ++ printed board_model /\
    pre_build_action w =
      on_fs (makedirs (firmware_dir_of w) true)
            (mkWorld (env w) (stdout w ++ printed board_model) (fs w)) /\
    (forall (m : M filesystem unit) (w1 : world),
        stdout (snd (on_fs m w1)) = stdout w1 /\ env (snd (on_fs m w1)) = env w1) /\
    (forall e, fst (pre_build_action w) = inl e ->
               stdout (snd (pre_build_action w)) = stdout w ++ printed board_model).
Proof.
  destruct (pre_build_action_result w) as (Hr & Hf & He).
  split; [exact He|]. split; [rewrite Hf; apply makedirs_extends|].
  destruct (scan_flags_total (flags_of w)) as [bm Hscan]. exists bm.
  split; [exact Hscan|]. split.
  { unfold printed. destruct (truthy bm); simpl; lia. }
  split; [apply pre_build_action_stdout; assumption|].
  split; [apply (pre_build_action_eq _ _ Hscan)|]. split.
  - intros m w1. rewrite on_fs_eq. auto.
  - intros e _. apply pre_build_action_stdout. assumption.
Qed.


(** * Further properties of the hook *)

(** ** The scanner on other shapes of flags *)

Lemma after_app_no_char (c : ascii) (a b : string) :
  Str.has_char c a = false -> Str.after c (a +:+ b) = Str.after c b.
Proof.
  induction a as [|d a IH]; str_simpl; [reflexivity|].
  simpl. intros H. apply orb_false_iff in H as [Hd Ha]. rewrite Hd. auto.
Qed.

Lemma before_app_sep (c : ascii) (u v : string) :
  Str.has_char c u = false -> Str.before c (u +:+ String c v) = u.
Proof.
  induction u as [|d u IH]; str_simpl; simpl.
  - rewrite Ascii.eqb_refl. reflexivity.
  - intros H. apply orb_false_iff in H as [Hd Hu]. rewrite Hd, IH by assumption.
    reflexivity.
Qed.

Lemma contains_marker_app (a b : string) :
  Str.contains marker (a +:+ "BOARD_MODEL=" +:+ b) = true.
Proof. apply contains_spec. exists a, b. reflexivity. Qed.

Lemma scan_flags_some_inv (flags : list string) (v : string) :
  scan_flags flags = inr (Some v) ->
  exists pre flag rest,
    flags = pre ++ flag :: rest /\ Forall no_marker pre /\
    Str.contains marker flag = true /\ v = field_1 flag.
Proof.
  induction flags as [|f flags IH]; simpl; [discriminate|].
  destruct (Str.contains marker f) eqn:E.
  - rewrite split_index_1_marker by assumption. intros H. inversion H; subst.
    exists [], f, flags. repeat split; auto.
  - intros H. destruct (IH H) as (pre & flag & rest & -> & Hpre & Hflag & ->).
    exists (f :: pre), flag, rest. repeat split; auto.
Qed.

Lemma scan_flags_none_inv (flags : list string) :
  scan_flags flags = inr None -> Forall no_marker flags.
Proof.
  induction flags as [|f flags IH]; simpl; [constructor|].
  destruct (Str.contains marker f) eqn:E.
  - rewrite split_index_1_marker by assumption. discriminate.
  - intros H. constructor; auto.
Qed.

(** X1.  The usual compiler-define form: when the first flag holding the
    marker is [prefix ++ "BOARD_MODEL=" ++ X], with no [=] in [prefix] (as in
    [-DBOARD_MODEL=esp32]) and none in [X], the scanner returns [X], and for
    a non-empty [X] the hook prints the line for [X]. *)
Theorem X1_define_flag (w : world) (pre rest : list string) (prefix X : string)
    (Hflags : flags_of w = pre ++ (prefix +:+ "BOARD_MODEL=" +:+ X) :: rest)
    (Hpre : Forall no_marker pre)
    (Hprefix : Str.has_char eq_char prefix = false)
    (HX : Str.has_char eq_char X = false) :
  scan_flags (flags_of w) = inr (Some X) /\
  (X <> "" ->
   stdout (snd (pre_build_action w)) =
   stdout w ++ ["[Geogram] Building for board model: " +:+ X]).
Proof.
  assert (Hscan : scan_flags (flags_of w) = inr (Some X)).
  { rewrite Hflags, scan_flags_first by (assumption || apply contains_marker_app).
    unfold field_1. rewrite after_app_no_char by assumption.
    change (Str.after eq_char ("BOARD_MODEL=" +:+ X)) with X.
    rewrite before_id by assumption. reflexivity. }
  split; [exact Hscan|]. intros Hne.
  rewrite (pre_build_action_stdout _ _ Hscan). unfold printed, truthy.
  apply String.eqb_neq in Hne. rewrite Hne. reflexivity.
Qed.

Lemma X1_define_flag_witness :
  scan_flags ["-Wall"; "-DBOARD_MODEL=esp32s3"; "-DBOARD_MODEL=other"] = inr (Some "esp32s3") /\
  stdout (snd (pre_build_action
                 (sample_world ["-Wall"; "-DBOARD_MODEL=esp32s3"; "-DBOARD_MODEL=other"]
                               "/tmp/proj")))
  = ["[Geogram] Building for board model: esp32s3"].
Proof.
  assert (Hpre : Forall no_marker ["-Wall"]) by (repeat constructor).
  destruct (X1_define_flag
              (sample_world ["-Wall"; "-DBOARD_MODEL=esp32s3"; "-DBOARD_MODEL=other"] "/tmp/proj")
              ["-Wall"] ["-DBOARD_MODEL=other"] "-D" "esp32s3"
              eq_refl Hpre eq_refl eq_refl) as [H1 H2].
  split; [exact H1|]. apply H2. discriminate.
Defined.

(** X2.  When an [=] stands before the marker in the first flag holding it,
    [a=b...BOARD_MODEL=X] with no [=] in [a] and [b], the value is [b]
    followed by [BOARD_MODEL], whatever [X] is: the board model itself is
    never returned, and the hook prints the line for that text. *)
Theorem X2_eq_before_marker (w : world) (pre rest : list string) (a b X : string)
    (Hflags : flags_of w = pre ++ (a +:+ "=" +:+ b +:+ "BOARD_MODEL=" +:+ X) :: rest)
    (Hpre : Forall no_marker pre)
    (Ha : Str.has_char eq_char a = false)
    (Hb : Str.has_char eq_char b = false) :
  scan_flags (flags_of w) = inr (Some (b +:+ "BOARD_MODEL")) /\
  stdout (snd (pre_build_action w)) =
  stdout w ++ ["[Geogram] Building for board model: " +:+ b +:+ "BOARD_MODEL"].
Proof.
  assert (Hscan : scan_flags (flags_of w) = inr (Some (b +:+ "BOARD_MODEL"))).
  { rewrite Hflags, scan_flags_first; [|assumption|].
    2:{ apply contains_spec. exists (a +:+ "=" +:+ b), X.
        rewrite !str_app_assoc. reflexivity. }
    unfold field_1. rewrite after_app_no_char by assumption.
    change (Str.after eq_char ("=" +:+ b +:+ "BOARD_MODEL=" +:+ X))
      with (b +:+ "BOARD_MODEL=" +:+ X).
    replace (b +:+ "BOARD_MODEL=" +:+ X)
      with ((b +:+ "BOARD_MODEL") +:+ String eq_char X)
      by (rewrite str_app_assoc; reflexivity).
    rewrite before_app_sep; [reflexivity|].
    rewrite has_char_app, Hb. reflexivity. }
  split; [exact Hscan|].
  rewrite (pre_build_action_stdout _ _ Hscan). unfold printed, truthy.
  assert (Hne : b +:+ "BOARD_MODEL" <> "").
  { intros H. apply str_app_empty in H as [_ H]. discriminate. }
  apply String.eqb_neq in Hne. rewrite Hne. reflexivity.
Qed.

Lemma X2_eq_before_marker_witness :
  scan_flags ["-DFOO=1 -DBOARD_MODEL=esp32"] = inr (Some "1 -DBOARD_MODEL") /\
  stdout (snd (pre_build_action (sample_world ["-DFOO=1 -DBOARD_MODEL=esp32"] "/tmp/proj")))
  = ["[Geogram] Building for board model: 1 -DBOARD_MODEL"].
Proof.
  exact (X2_eq_before_marker
           (sample_world ["-DFOO=1 -DBOARD_MODEL=esp32"] "/tmp/proj")
           [] [] "-DFOO" "1 -D" "esp32" eq_refl ltac:(constructor) eq_refl eq_refl).
Defined.

(** X3.  The scanner returns [None] exactly when no flag holds the marker,
    and a value [v] exactly when [v] is the second [=]-field of the first
    flag holding it; a value it returns never contains an [=]. *)
Theorem X3_scanner_characterised (flags : list string) :
  (scan_flags flags = inr None <-> Forall no_marker flags) /\
  (forall v,
      scan_flags flags = inr (Some v) <->
      exists pre flag rest,
        flags = pre ++ flag :: rest /\ Forall no_marker pre /\
        Str.contains marker flag = true /\ v = field_1 flag) /\
  (forall v, scan_flags flags = inr (Some v) -> Str.has_char eq_char v = false).
Proof.
  split; [|split].
  - split; [apply scan_flags_none_inv|apply scan_flags_none].
  - intros v. split; [apply scan_flags_some_inv|].
    intros (pre & flag & rest & -> & Hpre & Hflag & ->).
    apply scan_flags_first; assumption.
  - intros v H. destruct (scan_flags_some_inv _ _ H) as (_ & flag & _ & _ & _ & _ & ->).
    apply before_no_char.
Qed.

(** ** What the hook's two effects depend on *)

(** X4.  The outcome of the hook and the filesystem it leaves depend only on
    the project directory and the filesystem, not on the build flags or on
    what was printed before; the lines it prints depend only on the build
    flags, not on the project directory or the filesystem. *)
Theorem X4_independence (w1 w2 : world) :
  (PROJECT_DIR (env w1) = PROJECT_DIR (env w2) -> fs w1 = fs w2 ->
   fst (pre_build_action w1) = fst (pre_build_action w2) /\
   fs (snd (pre_build_action w1)) = fs (snd (pre_build_action w2))) /\
  (flags_of w1 = flags_of w2 ->
   exists lines,
     stdout (snd (pre_build_action w1)) = stdout w1 ++ lines /\
     stdout (snd (pre_build_action w2)) = stdout w2 ++ lines).
Proof.
  split.
  - intros Hp Hf.
    destruct (pre_build_action_result w1) as (Hr1 & Hf1 & _).
    destruct (pre_build_action_result w2) as (Hr2 & Hf2 & _).
    rewrite Hr1, Hf1, Hr2, Hf2. unfold firmware_dir_of. rewrite Hp, Hf. auto.
  - intros Hflags. destruct (scan_flags_total (flags_of w1)) as [bm H1].
    assert (H2 : scan_flags (flags_of w2) = inr bm) by (rewrite <- Hflags; exact H1).
    exists (printed bm). split; apply pre_build_action_stdout; assumption.
Qed.

Lemma X4_independence_witness :
  fst (pre_build_action (sample_world ["BOARD_MODEL=esp32"] "/ro")) =
  fst (pre_build_action (sample_world ["OTHER=1"] "/ro")) /\
  exists lines,
    stdout (snd (pre_build_action (sample_world ["BOARD_MODEL=esp32"] "/ro")))
      = [] ++ lines /\
    stdout (snd (pre_build_action (sample_world ["BOARD_MODEL=esp32"] "/tmp/proj")))
      = [] ++ lines.
Proof.
  split.
  - apply (proj1 (X4_independence (sample_world ["BOARD_MODEL=esp32"] "/ro")
                                  (sample_world ["OTHER=1"] "/ro")));
      reflexivity.
  - apply (proj2 (X4_independence (sample_world ["BOARD_MODEL=esp32"] "/ro")
                                  (sample_world ["BOARD_MODEL=esp32"] "/tmp/proj"))).
    reflexivity.
Defined.

(** X5.  A second run of the hook prints the same line once more, whatever
    the directory step did in either run, and still leaves the construction
    environment as it was. *)
Theorem X5_second_run (w : world) :
  exists lines,
    List.length lines <= 1 /\
    stdout (snd (pre_build_action w)) = stdout w ++ lines /\
    stdout (snd (pre_build_action (snd (pre_build_action w)))) =
      stdout w ++ lines ++ lines /\
    env (snd (pre_build_action (snd (pre_build_action w)))) = env w.
Proof.
  destruct (scan_flags_total (flags_of w)) as [bm Hscan].
  destruct (pre_build_action_result w) as (_ & _ & He).
  destruct (pre_build_action_result (snd (pre_build_action w))) as (_ & _ & He').
  assert (Hscan' : scan_flags (flags_of (snd (pre_build_action w))) = inr bm).
  { unfold flags_of. rewrite He. exact Hscan. }
  exists (printed bm). split; [|split; [|split]].
  - unfold printed. destruct (truthy bm); simpl; lia.
  - apply pre_build_action_stdout. assumption.
  - rewrite (pre_build_action_stdout _ _ Hscan'), (pre_build_action_stdout _ _ Hscan).
    rewrite <- app_assoc. reflexivity.
  - rewrite He'. exact He.
Qed.

(** ** The directory step when the project directory is there *)

Lemma ensure_head_parent_dir (fuel : nat) (p head tail : string) (exist_ok : bool)
    (fs : filesystem) (d : list string) (w : bool) :
  os_path_split p = (head, tail) -> tail <> "" -> has_nul p = false ->
  parent_loc fs p = inr d -> nodes fs !! d = Some (Dir w) ->
  ensure_head fuel head tail exist_ok fs = (inr false, fs).
Proof.
  intros Hsplit Ht Hnul Hp Hd. unfold ensure_head, bind, path_exists, ret.
  destruct (String.eqb_spec head "") as [->|Hh]; simpl; [reflexivity|].
  apply String.eqb_neq in Ht as Ht'. rewrite Ht'. simpl.
  assert (Hs : os_stat fs head = inr (Dir w)).
  { unfold os_stat. rewrite (has_nul_head _ _ _ Hsplit Hnul).
    apply String.eqb_neq in Hh as Hh'. rewrite Hh'.
    unfold parent_loc, start in *.
    rewrite <- (startswith_head _ _ _ Hsplit Hh).
    apply (walk_parent_comps _ _ _ Hsplit _ _ _ w Hh Hd) in Hp.
    rewrite Hp, Hd. reflexivity. }
  rewrite Hs. reflexivity.
Qed.

(** [makedirs] on a path whose parent is a directory is one [os.mkdir]. *)
Lemma makedirs_rec_parent_dir (fuel : nat) (p head tail : string)
    (fs : filesystem) (d : list string) (w : bool) :
  os_path_split p = (head, tail) -> plain tail = true ->
  has_nul p = false -> too_long tail = false ->
  parent_loc fs p = inr d -> nodes fs !! d = Some (Dir w) ->
  makedirs_rec (S fuel) p true fs =
  match nodes fs !! (d ++ [tail]) with
  | Some (Dir _) => (inr tt, fs)
  | Some File => (inl FileExistsError, fs)
  | None =>
      if w then (inr tt, mkFs (<[d ++ [tail] := Dir true]> (nodes fs)) (cwd fs) (room fs))
      else (inl PermissionError, fs)
  end.
Proof.
  intros Hsplit Hplain Hnul Hshort Hp Hd.
  assert (Ht : tail <> "") by (intros ->; discriminate).
  rewrite makedirs_rec_S, (split2_tail _ _ _ Hsplit Ht). simpl fst. simpl snd.
  unfold bind at 1.
  rewrite (ensure_head_parent_dir _ _ _ _ _ _ _ _ Hsplit Ht Hnul Hp Hd).
  unfold mkdir_or_exists, try_except.
  rewrite (os_mkdir_split _ _ _ Hsplit Ht), Hnul, Hp, Hd, Hplain, Hshort.
  simpl negb. cbv iota.
  destruct (nodes fs !! (d ++ [tail])) as [n|] eqn:En.
  - change (is_OSError FileExistsError) with true. cbv iota.
    unfold bind, path_isdir, raise, ret.
    rewrite (os_stat_split _ _ _ Hsplit Ht), Hnul, Hp, Hd, Hshort, step_plain, En
      by assumption.
    destruct n; reflexivity.
  - destruct w; [reflexivity|].
    change (is_OSError PermissionError) with true. cbv iota.
    unfold bind, path_isdir, raise, ret.
    rewrite (os_stat_split _ _ _ Hsplit Ht), Hnul, Hp, Hd, Hshort, step_plain, En
      by assumption.
    reflexivity.
Qed.





(** ** The project directory is a regular file, or is empty *)






(** X8.  With an empty project directory the firmware directory is the
    relative path [firmware]: the hook works in the current directory, with
    the same four outcomes as in a project directory that exists. *)
Theorem X8_empty_project_dir (w : world) (wr : bool)
    (Hempty : PROJECT_DIR (env w) = "")
    (Hcwd : nodes (fs w) !! cwd (fs w) = Some (Dir wr)) :
  firmware_dir_of w = "firmware" /\
  (fst (pre_build_action w), fs (snd (pre_build_action w))) =
  match nodes (fs w) !! (cwd (fs w) ++ ["firmware"]) with
  | Some (Dir _) => (inr tt, fs w)
  | Some File => (inl FileExistsError, fs w)
  | None =>
      if wr
      then (inr tt, mkFs (<[cwd (fs w) ++ ["firmware"] := Dir true]> (nodes (fs w)))
                         (cwd (fs w)) (room (fs w)))
      else (inl PermissionError, fs w)
  end.
Proof.
  assert (Hdir : firmware_dir_of w = "firmware").
  { unfold firmware_dir_of. rewrite Hempty. reflexivity. }
  split; [exact Hdir|].
  destruct (pre_build_action_result w) as (Hr & Hf & _). rewrite Hr, Hf, Hdir.
  rewrite <- surjective_pairing. unfold makedirs.
  apply (makedirs_rec_parent_dir _ "firmware" "" "firmware" _ (cwd (fs w)) wr);
    auto; reflexivity.
Qed.

Lemma X8_empty_project_dir_witness :
  (fst (pre_build_action (sample_world ["OTHER=1"] "")),
   fs (snd (pre_build_action (sample_world ["OTHER=1"] "")))) =
  (inr tt, mkFs (<[["firmware"] := Dir true]> (nodes sample_fs)) [] 900).
Proof.
  exact (proj2 (X8_empty_project_dir (sample_world ["OTHER=1"] "") true eq_refl eq_refl)).
Defined.

(** ** After the hook: the directory is there exactly when it returned *)

Lemma mkdir_or_exists_error_not_dir (p : string) (fs fs' : filesystem) (e : exn) :
  mkdir_or_exists p true fs = (inl e, fs') ->
  forall w, os_stat fs' p <> inr (Dir w).
Proof.
  unfold mkdir_or_exists, try_except.
  destruct (os_mkdir p fs) as [[e0|[]] fs1] eqn:E; [|discriminate].
  destruct (os_mkdir_error _ _ _ _ E) as [-> [[Hn ->]|[_ He]]].
  { simpl. intros H; inversion H; subst. intros w.
    rewrite (os_stat_nul _ _ Hn). discriminate. }
  rewrite He. unfold bind, path_isdir, raise, ret.
  destruct (os_stat fs p) as [e1|[w1|]] eqn:Es; simpl;
    intros H; inversion H; subst; intros w; rewrite Es; discriminate.
Qed.

Lemma makedirs_rec_error_step (fuel : nat) :
  (forall name fs e fs',
      (fuel = 0 -> forall w, os_stat fs name <> inr (Dir w)) ->
      makedirs_rec fuel name true fs = (inl e, fs') ->
      forall w, os_stat fs' name <> inr (Dir w)) ->
  forall p head tail fs e fs',
    os_path_split p = (head, tail) -> tail <> "" ->
    makedirs_rec (S fuel) p true fs = (inl e, fs') ->
    forall w, os_stat fs' p <> inr (Dir w).
Proof.
  intros IH p head tail fs e fs' Hsplit Ht.
  rewrite makedirs_rec_S, (split2_tail _ _ _ Hsplit Ht). simpl fst. simpl snd.
  unfold bind at 1.
  destruct (ensure_head fuel head tail true fs) as [r1 fs1] eqn:E.
  destruct (ensure_head_cases _ _ _ _ _ _ _ E)
    as [[-> ->]|(Hh & _ & [e1 Hs1] & r0 & Hrec & [[-> _]|(e0 & -> & -> & _)])].
  - apply mkdir_or_exists_error_not_dir.
  - destruct (String.eqb tail "."); [discriminate|].
    apply mkdir_or_exists_error_not_dir.
  - intros H; inversion H; subst. intros w Hs.
    destruct (os_stat_head _ _ _ Hsplit Ht _ _ Hh Hs) as [w' Hs'].
    eapply (IH head fs e fs'); [|exact Hrec|exact Hs'].
    intros _ w0. rewrite Hs1. discriminate.
Qed.

(** When [makedirs] raises, its path is not a directory afterwards; a call
    that does not fit is made only on a path that is not there. *)
Lemma makedirs_rec_error_not_dir (fuel : nat) :
  forall name fs e fs',
    (fuel = 0 -> forall w, os_stat fs name <> inr (Dir w)) ->
    makedirs_rec fuel name true fs = (inl e, fs') ->
    forall w, os_stat fs' name <> inr (Dir w).
Proof.
  induction fuel as [|fuel IH]; intros name fs e fs' Hpre.
  { simpl. unfold raise. intros H; inversion H; subst. apply Hpre. reflexivity. }
  clear Hpre.
  destruct (os_path_split name) as [head tail] eqn:Hsplit.
  destruct (String.eqb_spec tail "") as [->|Ht];
    [|apply (makedirs_rec_error_step fuel IH _ _ _ _ _ _ Hsplit Ht)].
  destruct (String.eqb_spec name "") as [->|Hname].
  { intros _ w. discriminate. }
  destruct (os_path_split_empty_tail _ _ Hsplit Hname)
    as [(k & Hrep & ->)|(k & Hh & Hend & ->)].
  - rewrite makedirs_rec_S. unfold split2. rewrite Hsplit. simpl String.eqb. cbv iota.
    rewrite Hsplit. simpl fst. simpl snd.
    unfold ensure_head. simpl String.eqb. rewrite andb_false_r.
    unfold bind at 1, ret at 1.
    apply mkdir_or_exists_error_not_dir.
  - rewrite makedirs_rec_trailing by assumption. intros H w Hs.
    rewrite os_stat_trailing in Hs by assumption.
    destruct (os_path_split head) as [head' tail'] eqn:Hsplit'.
    pose proof (tail_nonempty _ _ _ Hsplit' Hh Hend) as Ht'.
    apply (makedirs_rec_error_step fuel IH _ _ _ _ _ _ Hsplit' Ht' H w).
    destruct (os_stat fs' head) as [e1|[w1|]]; congruence.
Qed.

(** X9.  The hook returns normally exactly when the firmware path is a
    directory afterwards: a run that raised has not left the directory
    behind, and a run that returned has. *)
Theorem X9_returns_iff_directory (w : world) :
  fst (pre_build_action w) = inr tt <->
  fst (path_isdir (firmware_dir_of w) (fs (snd (pre_build_action w)))) = inr true.
Proof.
  destruct (pre_build_action_result w) as (Hr & Hf & _). rewrite Hr, Hf.
  unfold firmware_dir_of, makedirs.
  destruct (makedirs_rec _ _ true (fs w)) as [[e|[]] fs'] eqn:E; simpl.
  - split; [discriminate|].
    unfold path_isdir. simpl.
    destruct (os_stat fs' _) as [e1|[w1|]] eqn:Es; try discriminate.
    exfalso. eapply makedirs_rec_error_not_dir; [|exact E|exact Es]. discriminate.
  - split; [|reflexivity]. intros _.
    destruct (makedirs_firmware_isdir _ _ _ E) as [wr Hs].
    unfold path_isdir. simpl. rewrite Hs. reflexivity.
Qed.

(** ** Paths that resolved before the hook *)

Lemma os_stat_extends (fs fs' : filesystem) (p : string) (n : node) :
  extends fs fs' -> os_stat fs p = inr n -> os_stat fs' p = inr n.
Proof.
  intros Hext. unfold os_stat, start. rewrite (proj1 (proj1 Hext)).
  destruct (has_nul p); [discriminate|].
  destruct (String.eqb p ""); [discriminate|].
  destruct (walk (nodes fs) _ (Str.split sep p)) as [e|loc] eqn:Ew; [discriminate|].
  erewrite walk_mono; [|intros k m Hk; eapply extends_keeps; eauto|exact Ew].
  destruct (nodes fs !! loc) as [m|] eqn:El; [|discriminate].
  rewrite (extends_keeps _ _ _ _ Hext El). auto.
Qed.

(** X10.  Every path that named a file or a directory before the hook ran
    names the same node afterwards, whether the hook returned or raised. *)
Theorem X10_paths_kept (w : world) (p : string) (n : node)
    (Hbefore : os_stat (fs w) p = inr n) :
  os_stat (fs (snd (pre_build_action w))) p = inr n.
Proof.
  destruct (pre_build_action_result w) as (_ & Hf & _). rewrite Hf.
  eapply os_stat_extends; [apply makedirs_extends|exact Hbefore].
Qed.

Lemma X10_paths_kept_witness :
  os_stat (fs (snd (pre_build_action (sample_world ["OTHER=1"] "/etc/../tmp/new"))))
          "/etc/./passwd" = inr File.
Proof.
  exact (X10_paths_kept (sample_world ["OTHER=1"] "/etc/../tmp/new")
           "/etc/./passwd" File eq_refl).
Defined.

(** ** When the hook prints, and what it keeps well-formed *)

(** X11.  The hook prints something exactly when some flag holds the marker
    and the first such flag has a non-empty second [=]-field. *)
Theorem X11_prints_iff (w : world) :
  stdout (snd (pre_build_action w)) <> stdout w <->
  exists pre flag rest,
    flags_of w = pre ++ flag :: rest /\ Forall no_marker pre /\
    Str.contains marker flag = true /\ field_1 flag <> "".
Proof.
  destruct (scan_flags_total (flags_of w)) as [bm Hscan].
  rewrite (pre_build_action_stdout _ _ Hscan). split.
  - intros Hne. destruct bm as [v|].
    + destruct (scan_flags_some_inv _ _ Hscan) as (pre & flag & rest & H1 & H2 & H3 & ->).
      exists pre, flag, rest. repeat split; try assumption.
      intros Hempty. apply Hne. unfold printed, truthy. rewrite Hempty.
      apply app_nil_r.
    + exfalso. apply Hne. apply app_nil_r.
  - intros (pre & flag & rest & H1 & H2 & H3 & H4).
    rewrite H1, scan_flags_first in Hscan by assumption.
    inversion Hscan; subst bm. unfold printed, truthy.
    apply String.eqb_neq in H4. rewrite H4. simpl.
    intros Heq. apply (f_equal (@List.length string)) in Heq.
    rewrite length_app in Heq. simpl in Heq. lia.
Qed.

(** X12.  On a well-formed filesystem (the root and the current directory
    are directories, and whatever exists is in a directory) the hook leaves
    a well-formed filesystem, whether it returns or raises. *)
Theorem X12_wf_kept (w : world) (Hwf : wf (fs w)) :
  wf (fs (snd (pre_build_action w))).
Proof.
  destruct (pre_build_action_result w) as (_ & Hf & _). rewrite Hf.
  assert (Hne : firmware_dir_of w <> "").
  { unfold firmware_dir_of.
    destruct (firmware_split (PROJECT_DIR (env w))) as [head Hsplit].
    intros Hempty. rewrite Hempty in Hsplit. discriminate. }
  unfold makedirs.
  destruct (makedirs_rec _ (firmware_dir_of w) true (fs w)) as [r fs'] eqn:E.
  exact (proj1 (makedirs_rec_safe _ _ _ _ _ Hne Hwf E)).
Qed.

Lemma X12_wf_kept_witness :
  wf (fs (snd (pre_build_action (sample_world ["OTHER=1"] "/tmp/a/../b/c")))).
Proof.
  exact (X12_wf_kept (sample_world ["OTHER=1"] "/tmp/a/../b/c") sample_fs_wf).
Defined.

(** ** Paths the system refuses, and calls that do not fit *)

(** [RecursionError] is raised on the way down, before any directory is
    made. *)
Lemma makedirs_rec_recursion_unchanged (fuel : nat) (name : string) (exist_ok : bool)
    (fs fs' : filesystem) :
  makedirs_rec fuel name exist_ok fs = (inl RecursionError, fs') -> fs' = fs.
Proof.
  revert name fs fs'. induction fuel as [|fuel IH]; intros name fs fs'.
  { simpl. unfold raise. intros H; inversion H; reflexivity. }
  rewrite makedirs_rec_S. unfold bind at 1.
  destruct (split2 name) as [head tail] eqn:Es2. simpl.
  destruct (ensure_head fuel head tail exist_ok fs) as [[e1|returned] fs1] eqn:E.
  - intros H; inversion H; subst.
    destruct (ensure_head_cases _ _ _ _ _ _ _ E)
      as [[? ?]|(Hh & Ht & _ & r0 & Hr & [[? _]|(e0 & -> & He & _)])];
      try discriminate.
    inversion He; subst. eapply IH; eauto.
  - destruct returned; [unfold ret; intros H; inversion H|].
    intros H. destruct (mkdir_or_exists_error _ _ _ _ _ H) as [Ho|[Hv _]]; discriminate.
Qed.

(** X13.  A project directory that holds a NUL always makes the hook fail:
    [os.mkdir] refuses the firmware path with [ValueError] whatever the
    filesystem is, the hook raises, and the firmware path is not a directory
    afterwards. *)
Theorem X13_nul_in_project_dir (w : world)
    (Hnul : has_nul (PROJECT_DIR (env w)) = true) :
  (forall fs0, os_mkdir (firmware_dir_of w) fs0 = (inl ValueError, fs0)) /\
  (exists e, fst (pre_build_action w) = inl e) /\
  fst (path_isdir (firmware_dir_of w) (fs (snd (pre_build_action w)))) = inr false.
Proof.
  assert (Hn : has_nul (firmware_dir_of w) = true)
    by (rewrite has_nul_firmware_dir; exact Hnul).
  split; [intros fs0; apply os_mkdir_nul; exact Hn|].
  split.
  - destruct (pre_build_action_result w) as (Hr & _ & _). rewrite Hr.
    unfold firmware_dir_of in *.
    destruct (makedirs _ true (fs w)) as [[e|[]] fs'] eqn:E; simpl.
    + exists e. reflexivity.
    + destruct (makedirs_firmware_isdir _ _ _ E) as [wr Hs].
      rewrite (os_stat_nul _ _ Hn) in Hs. discriminate.
  - unfold path_isdir. simpl. rewrite (os_stat_nul _ _ Hn). reflexivity.
Qed.

Lemma X13_nul_in_project_dir_witness :
  exists e, fst (pre_build_action (sample_world ["BOARD_MODEL=esp32"] path_with_nul)) = inl e.
Proof.
  exact (proj1 (proj2 (X13_nul_in_project_dir
                         (sample_world ["BOARD_MODEL=esp32"] path_with_nul) eq_refl))).
Defined.

(** X14.  When the hook fails with [RecursionError], no directory has been
    made: the filesystem is as it was; and the firmware path has more
    separators than the interpreter has room for nested calls of
    [os.makedirs]. *)
Theorem X14_recursion_error (w : world)
    (Hrec : fst (pre_build_action w) = inl RecursionError) :
  fs (snd (pre_build_action w)) = fs w /\
  room (fs w) < Str.count sep (firmware_dir_of w).
Proof.
  destruct (pre_build_action_result w) as (Hr & Hf & _).
  rewrite Hr in Hrec. split.
  - rewrite Hf. unfold makedirs in *.
    destruct (makedirs_rec _ (firmware_dir_of w) true (fs w)) as [r fs'] eqn:E.
    cbn [fst snd] in *. subst r. eapply makedirs_rec_recursion_unchanged; exact E.
  - destruct (makedirs_error_kind _ _ _ _ Hrec) as [Ho|[[Hv _]|[_ Hlt]]];
      [discriminate|discriminate|exact Hlt].
Qed.

Lemma X14_recursion_error_witness :
  fs (snd (pre_build_action
            (mkWorld (mkEnv (Some ["OTHER=1"]) "/tmp/a/b/c") [] sample_fs_shallow)))
  = sample_fs_shallow.
Proof.
  apply (proj1 (X14_recursion_error
                  (mkWorld (mkEnv (Some ["OTHER=1"]) "/tmp/a/b/c") [] sample_fs_shallow)
                  ltac:(vm_compute; reflexivity))).
Defined.

(** A name of 255 bytes is made, one of 256 is refused; the directories
    before a refused name are made and stay. *)
Example name_too_long :
  fst (pre_build_action (sample_world [] ("/tmp/" +:+ Str.repeat "x"%char 255))) = inr tt /\
  pre_build_action (sample_world [] ("/tmp/" +:+ Str.repeat "x"%char 256)) =
    (inl OSError_ENAMETOOLONG, sample_world [] ("/tmp/" +:+ Str.repeat "x"%char 256)) /\
  fst (pre_build_action (sample_world [] ("/tmp/a/" +:+ Str.repeat "x"%char 256)))
    = inl OSError_ENAMETOOLONG /\
  nodes (fs (snd (pre_build_action
                    (sample_world [] ("/tmp/a/" +:+ Str.repeat "x"%char 256)))))
    !! ["tmp"; "a"] = Some (Dir true).
Proof.
  split; [vm_compute; reflexivity|]. split; [vm_compute; reflexivity|].
  split; vm_compute; reflexivity.
Qed.

(** The directories before a name with a NUL are made and stay. *)
Example nul_below_new_directory :
  fst (pre_build_action (sample_world [] ("/tmp/a/b" +:+ String NUL "c/d"))) = inl ValueError /\
  nodes (fs (snd (pre_build_action (sample_world [] ("/tmp/a/b" +:+ String NUL "c/d")))))
    !! ["tmp"; "a"] = Some (Dir true).
Proof. split; vm_compute; reflexivity. Qed.
